(** * Stock / currency report pipeline

    A shallow embedding of [wix-api-integration-and-data-pipeline-task.py]:
    the three fetchers, the wide-to-long reshape, the cross join with the
    exchange rates and the driver [main].

    Python values are modelled by [pyval]; pandas data frames are objects of
    a store, referenced by location, because the report builder assigns a
    column of the frame it is handed.  The program's effects (store, log,
    written files, exceptions) are threaded by the monad [M]. *)

From Stdlib Require Import List String Ascii Bool Arith ZArith Lia Floats.
Import ListNotations.
Open Scope string_scope.
Open Scope list_scope.

Set Implicit Arguments.
Set Warnings "-register-all".

(** ** JSON values and Python objects *)

(** A parsed JSON body.  Numbers are binary64 values (the dtype pandas gives a
    column of prices); the keys of an object are in insertion order and, as in
    a Python dict, distinct. *)
Inductive json : Type :=
| JNull
| JBool (b : bool)
| JNum (x : float)
| JStr (s : string)
| JArr (l : list json)
| JObj (kvs : list (string * json)).

Definition loc := nat.

(** A Python value of the program: a JSON-like object ([None] is
    [PJ JNull]) or a reference to a data frame. *)
Inductive pyval : Type :=
| PJ (j : json)
| PFrame (l : loc).

Definition PNone : pyval := PJ JNull.
Definition PStr (s : string) : pyval := PJ (JStr s).

Fixpoint dict_get (k : string) (kvs : list (string * json)) : option json :=
  match kvs with
  | [] => None
  | (k', v) :: rest => if String.eqb k k' then Some v else dict_get k rest
  end.

Definition dict_has (k : string) (kvs : list (string * json)) : bool :=
  match dict_get k kvs with Some _ => true | None => false end.

(** [str.upper()] on the ASCII letters; other bytes are left as they are. *)
Definition upper_ascii (c : ascii) : ascii :=
  let n := nat_of_ascii c in
  if ((97 <=? n) && (n <=? 122))%nat then ascii_of_nat (n - 32) else c.

Fixpoint upper (s : string) : string :=
  match s with
  | EmptyString => EmptyString
  | String c rest => String (upper_ascii c) (upper rest)
  end.

(** ** Data frames *)

(** A frame is its column labels and its rows, each row holding one cell per
    column, in the order of the labels.  A label denotes the first column
    that carries it. *)
Record DataFrame : Type := mkDF {
  columns : list string;
  rows : list (list json)
}.

Definition mem (c : string) (cs : list string) : bool :=
  existsb (String.eqb c) cs.

Fixpoint index_of (c : string) (cs : list string) : option nat :=
  match cs with
  | [] => None
  | c' :: rest =>
      if String.eqb c c' then Some 0
      else match index_of c rest with Some i => Some (S i) | None => None end
  end.

Definition cell_at (i : nat) (r : list json) : json := nth i r JNull.

(** The cell of row [r] under label [c], for a frame with labels [cs]. *)
Definition cell (cs : list string) (r : list json) (c : string) : json :=
  match index_of c cs with Some i => cell_at i r | None => JNull end.

Fixpoint replace_nth (i : nat) (r : list json) (v : json) : list json :=
  match r, i with
  | [], _ => []
  | _ :: t, 0 => v :: t
  | h :: t, S i' => h :: replace_nth i' t v
  end.

(** [pd.DataFrame([data])] for a dict [data]. *)
Definition df_of_record (kvs : list (string * json)) : DataFrame :=
  mkDF (map fst kvs) [map snd kvs].

(** [pd.DataFrame(list(d.items()), columns=[c1, c2])]. *)
Definition df_of_items (c1 c2 : string) (kvs : list (string * json)) : DataFrame :=
  mkDF [c1; c2] (map (fun kv => [JStr (fst kv); snd kv]) kvs).

(** [pd.DataFrame(columns=cs)]. *)
Definition df_empty (cs : list string) : DataFrame := mkDF cs [].

Definition rename_label (m : list (string * string)) (c : string) : string :=
  match find (fun kv => String.eqb c (fst kv)) m with
  | Some kv => snd kv
  | None => c
  end.

(** [df.rename(columns=m)]: a new frame. *)
Definition df_rename (m : list (string * string)) (df : DataFrame) : DataFrame :=
  mkDF (map (rename_label m) (columns df)) (rows df).

(** Exceptions of the program, by class. *)
Inductive exn : Type :=
| RequestException   (* requests.get failed: connection, timeout *)
| HTTPError          (* raise_for_status on a 4xx/5xx status *)
| JSONDecodeError    (* response.json() on a body that is not JSON *)
| ValueError
| KeyError
| TypeError
| AttributeError.

(** [except (Timeout, RequestException)]: requests' JSONDecodeError derives
    from RequestException as well as from ValueError. *)
Definition is_RequestException (e : exn) : bool :=
  match e with
  | RequestException | HTTPError | JSONDecodeError => true
  | _ => false
  end.

Definition is_ValueError (e : exn) : bool :=
  match e with
  | ValueError | JSONDecodeError => true
  | _ => false
  end.

(** [df.melt(id_vars, value_vars, var_name, value_name)]: one block of rows
    per value column, in the order of [value_vars]; inside a block the rows
    of [df] in their order.  A label that is not a column is a KeyError; a
    [value_name] that is already a column is a ValueError. *)
Definition df_melt (id_vars value_vars : list string) (var_name value_name : string)
    (df : DataFrame) : exn + DataFrame :=
  if negb (forallb (fun c => mem c (columns df)) (id_vars ++ value_vars)) then inl KeyError
  else if mem value_name (columns df) then inl ValueError
  else inr (mkDF (id_vars ++ [var_name; value_name])
              (flat_map (fun v =>
                  map (fun r => map (cell (columns df) r) id_vars
                                  ++ [JStr v; cell (columns df) r v])
                      (rows df))
                value_vars)).

Definition set_cell (idx : option nat) (r : list json) (v : json) : list json :=
  match idx with
  | Some i => replace_nth i r v
  | None => r ++ [v]
  end.

Definition set_label (c : string) (cs : list string) : list string :=
  if mem c cs then cs else cs ++ [c].

(** [df[c] = v] for a scalar [v]: the column is overwritten where it
    exists and appended as the last column otherwise. *)
Definition df_setitem_scalar (c : string) (v : json) (df : DataFrame) : DataFrame :=
  mkDF (set_label c (columns df))
       (map (fun r => set_cell (index_of c (columns df)) r v) (rows df)).

(** [df[c] = series], the series aligned with the rows of [df]. *)
Definition df_setitem_series (c : string) (vs : list json) (df : DataFrame) : DataFrame :=
  mkDF (set_label c (columns df))
       (map (fun rv => set_cell (index_of c (columns df)) (fst rv) (snd rv))
            (combine (rows df) vs)).

Definition suffix_overlap (other : list string) (sfx : string) (c : string) : string :=
  if mem c other then (c ++ sfx)%string else c.

(** [left.merge(right, how="cross")]: every row of [left] paired with every
    row of [right], left-major; labels the two frames share get the
    suffixes [_x] and [_y]. *)
Definition df_merge_cross (l r : DataFrame) : DataFrame :=
  mkDF (map (suffix_overlap (columns r) "_x") (columns l)
          ++ map (suffix_overlap (columns l) "_y") (columns r))
       (flat_map (fun a => map (fun b => a ++ b) (rows r)) (rows l)).

(** [df[c]] as the series of its cells. *)
Definition df_getitem (c : string) (df : DataFrame) : exn + list json :=
  match index_of c (columns df) with
  | Some i => inr (map (cell_at i) (rows df))
  | None => inl KeyError
  end.

(** [df[cs]] for a list of labels. *)
Definition df_select (cs : list string) (df : DataFrame) : exn + DataFrame :=
  if forallb (fun c => mem c (columns df)) cs
  then inr (mkDF cs (map (fun r => map (cell (columns df) r) cs) (rows df)))
  else inl KeyError.

(** Elementwise [*] of two series.  Numbers multiply in binary64 (a bool
    counts as 0 or 1); where either operand is missing ([None] or NaN) the
    result is NaN; any other pair of operands is a TypeError. *)
Definition is_na (j : json) : bool :=
  match j with
  | JNull => true
  | JNum x => PrimFloat.is_nan x
  | _ => false
  end.

Definition as_number (j : json) : option float :=
  match j with
  | JNum x => Some x
  | JBool b => Some (if b then 1%float else 0%float)
  | _ => None
  end.

Definition cell_mul (a b : json) : exn + json :=
  if is_na a || is_na b then inr (JNum PrimFloat.nan)
  else match as_number a, as_number b with
       | Some x, Some y => inr (JNum (PrimFloat.mul x y))
       | _, _ => inl TypeError
       end.

Fixpoint series_mul (xs ys : list json) : exn + list json :=
  match xs, ys with
  | x :: xs', y :: ys' =>
      match cell_mul x y with
      | inl e => inl e
      | inr v => match series_mul xs' ys' with
                 | inl e => inl e
                 | inr vs => inr (v :: vs)
                 end
      end
  | _, _ => inr []
  end.

(** ** Program state and the effect monad *)

Inductive level : Type := INFO | WARNING | ERROR.

(** The store of frames (a location is an index), the log records (most
    recent first; [logging.exception] records at level ERROR) and the files
    written, each as the frame that was saved to it. *)
Record state : Type := mkState {
  heap : list DataFrame;
  log : list (level * string);
  files : list (string * DataFrame)
}.

Definition init_state : state := mkState [] [] [].

Inductive outcome (A : Type) : Type :=
| Ret (a : A)
| Raise (e : exn).
Arguments Ret {A} a.
Arguments Raise {A} e.

Definition M (A : Type) : Type := state -> outcome A * state.

Definition ret {A} (a : A) : M A := fun st => (Ret a, st).

Definition raise {A} (e : exn) : M A := fun st => (Raise e, st).

Definition bind {A B} (m : M A) (f : A -> M B) : M B :=
  fun st =>
    match m st with
    | (Ret a, st') => f a st'
    | (Raise e, st') => (Raise e, st')
    end.

Declare Scope py_scope.
Delimit Scope py_scope with py.
Notation "x <- m ;; k" := (bind m (fun x => k))
  (at level 100, m at next level, right associativity) : py_scope.
Notation "m ;; k" := (bind m (fun _ => k))
  (at level 100, right associativity) : py_scope.
Open Scope py_scope.

(** [try: m except ...]: the clauses are the function [h], which gives the
    handler of the first clause that matches the exception.  What [m] did to
    the state before it raised stays done. *)
Definition try_except {A} (m : M A) (h : exn -> option (M A)) : M A :=
  fun st =>
    match m st with
    | (Ret a, st') => (Ret a, st')
    | (Raise e, st') =>
        match h e with
        | Some k => k st'
        | None => (Raise e, st')
        end
    end.

(** [except Exception]. *)
Definition any_exception {A} (k : M A) : exn -> option (M A) := fun _ => Some k.

Definition lift {A} (r : exn + A) : M A :=
  match r with inl e => raise e | inr a => ret a end.

Definition logging (lv : level) (msg : string) : M unit :=
  fun st => (Ret tt, mkState (heap st) ((lv, msg) :: log st) (files st)).

Definition logging_info := logging INFO.
Definition logging_warning := logging WARNING.
Definition logging_error := logging ERROR.
Definition logging_exception := logging ERROR.

(** *** Frames in the store *)

Fixpoint upd (l : loc) (df : DataFrame) (h : list DataFrame) : list DataFrame :=
  match h, l with
  | [], _ => []
  | _ :: t, 0 => df :: t
  | d :: t, S l' => d :: upd l' df t
  end.

(** A constructor or method that returns a new frame. *)
Definition new_frame (df : DataFrame) : M pyval :=
  fun st => (Ret (PFrame (List.length (heap st))),
             mkState (heap st ++ [df]) (log st) (files st)).

(** The frame behind [v]; a value that is no frame raises [err], the
    exception of the operation attempted on it. *)
Definition frame_of (err : exn) (v : pyval) : M (loc * DataFrame) :=
  fun st =>
    match v with
    | PFrame l =>
        match nth_error (heap st) l with
        | Some df => (Ret (l, df), st)
        | None => (Raise err, st)
        end
    | PJ _ => (Raise err, st)
    end.

Definition store_frame (l : loc) (df : DataFrame) : M unit :=
  fun st => (Ret tt, mkState (upd l df (heap st)) (log st) (files st)).

Definition rename_ (v : pyval) (m : list (string * string)) : M pyval :=
  ld <- frame_of AttributeError v ;;
  new_frame (df_rename m (snd ld)).

Definition columns_ (v : pyval) : M (list string) :=
  ld <- frame_of AttributeError v ;;
  ret (columns (snd ld)).

Definition melt_ (v : pyval) (id_vars value_vars : list string)
    (var_name value_name : string) : M pyval :=
  ld <- frame_of AttributeError v ;;
  df <- lift (df_melt id_vars value_vars var_name value_name (snd ld)) ;;
  new_frame df.

(** [v[c] = x]: assignment in place, seen by every holder of [v];
    [None[c] = x] is a TypeError. *)
Definition setitem_scalar_ (v : pyval) (c : string) (x : json) : M unit :=
  ld <- frame_of TypeError v ;;
  store_frame (fst ld) (df_setitem_scalar c x (snd ld)).

Definition setitem_series_ (v : pyval) (c : string) (xs : list json) : M unit :=
  ld <- frame_of TypeError v ;;
  store_frame (fst ld) (df_setitem_series c xs (snd ld)).

(** [v.merge(w, how="cross")]; merging with a value that is no frame is a
    TypeError. *)
Definition merge_cross_ (v w : pyval) : M pyval :=
  l <- frame_of AttributeError v ;;
  r <- frame_of TypeError w ;;
  new_frame (df_merge_cross (snd l) (snd r)).

Definition getitem_ (v : pyval) (c : string) : M (list json) :=
  ld <- frame_of TypeError v ;;
  lift (df_getitem c (snd ld)).

Definition select_ (v : pyval) (cs : list string) : M pyval :=
  ld <- frame_of TypeError v ;;
  df <- lift (df_select cs (snd ld)) ;;
  new_frame df.

(** [v.to_csv(path, index=False)]: the file is created or overwritten. *)
Definition to_csv_ (v : pyval) (path : string) : M unit :=
  ld <- frame_of AttributeError v ;;
  fun st =>
    (Ret tt,
     mkState (heap st) (log st)
       ((path, snd ld) :: filter (fun f => negb (String.eqb (fst f) path)) (files st))).

(** *** Python operators on JSON values *)

Definition is_None (v : pyval) : bool :=
  match v with PJ JNull => true | _ => false end.

(** [bool(v)]; the truth value of a frame is a ValueError. *)
Definition truth (v : pyval) : M bool :=
  match v with
  | PJ JNull => ret false
  | PJ (JBool b) => ret b
  | PJ (JNum x) => ret (negb (PrimFloat.eqb x 0%float))
  | PJ (JStr s) => ret (negb (String.eqb s ""))
  | PJ (JArr l) => ret (match l with [] => false | _ => true end)
  | PJ (JObj kvs) => ret (match kvs with [] => false | _ => true end)
  | PFrame _ => raise ValueError
  end.

Definition is_substring (k s : string) : bool :=
  match String.index 0 k s with Some _ => true | None => false end.

(** [k in j] for a string [k]. *)
Definition py_in (k : string) (j : json) : M bool :=
  match j with
  | JObj kvs => ret (dict_has k kvs)
  | JArr l => ret (existsb (fun x => match x with JStr s => String.eqb s k | _ => false end) l)
  | JStr s => ret (is_substring k s)
  | _ => raise TypeError
  end.

(** [j[k]] for a string [k]. *)
Definition py_getitem (j : json) (k : string) : M json :=
  match j with
  | JObj kvs => match dict_get k kvs with Some v => ret v | None => raise KeyError end
  | _ => raise TypeError
  end.

(** [j.get(k, {})]. *)
Definition py_get (j : json) (k : string) : M json :=
  match j with
  | JObj kvs => ret (match dict_get k kvs with Some v => v | None => JObj [] end)
  | _ => raise AttributeError
  end.

(** [j.items()]. *)
Definition py_items (j : json) : M (list (string * json)) :=
  match j with
  | JObj kvs => ret kvs
  | _ => raise AttributeError
  end.

(** ** The program *)

(** What [requests.get] meets: no response at all (the call raises), or a
    response with its status, its text and, where the text is JSON, the
    parsed body. *)
Record response : Type := mkResponse {
  status_code : Z;
  text : string;
  body : option json
}.

Inductive net_result : Type :=
| NetFail
| NetOk (r : response).

Definition price_columns : list string :=
  ["open"; "high"; "low"; "close"; "after_hours"; "pre_market"].

Definition long_columns : list string := ["ticker"; "date"; "price_type"; "price"].

Definition rate_columns : list string := ["currency"; "exchange_rate"].

Definition final_columns : list string :=
  ["date"; "ticker"; "price_type"; "ticker_currency"; "price"; "currency";
   "exchange_rate"; "currency_price"].

Definition output_path : string := "/tmp/stock_currency_report.csv".

Definition str_bool_lower (b : bool) : string := if b then "true" else "false".

Definition error_status (r : response) : bool :=
  ((400 <=? status_code r) && (status_code r <? 600))%Z.

Section Program.

(** The providers, as a function of the URL requested, and the API key read
    from the environment. *)
Variable network : string -> net_result.
Variable API_KEY : string.

Definition requests_get (url : string) : M response :=
  match network url with
  | NetFail => raise RequestException
  | NetOk r => ret r
  end.

(** [response.raise_for_status()]. *)
Definition raise_for_status (r : response) : M unit :=
  if error_status r then raise HTTPError else ret tt.

(** [response.json()]. *)
Definition response_json (r : response) : M json :=
  match body r with
  | Some j => ret j
  | None => raise JSONDecodeError
  end.

Definition stock_url (ticker date : string) (adjusted : bool) : string :=
  ("https://api.polygon.io/v1/open-close/" ++ ticker ++ "/" ++ date
     ++ "?adjusted=" ++ str_bool_lower adjusted ++ "&apiKey=" ++ API_KEY)%string.

(** The messages keep the text of the source; the interpolated exception
    or response ([{e}], [{data}], [{response.text}]) is left out. *)
Definition fetch_stock_data (ticker date : string) (adjusted : bool) : M pyval :=
  let url := stock_url ticker date adjusted in
  let no_data : M (option pyval) :=
    (logging_warning ("No trading data available for " ++ ticker ++ " on " ++ date ++ ".") ;;
     ret None) in
  logging_info ("Fetching stock data for " ++ ticker ++ " on " ++ date ++ " from " ++ url) ;;
  r <- try_except
         (response <- requests_get url ;;
          raise_for_status response ;;
          data <- response_json response ;;
          match data with
          | JObj kvs =>
              if dict_has "open" kvs && dict_has "close" kvs
              then df <- new_frame (df_of_record kvs) ;; ret (Some df)
              else no_data
          | _ => no_data
          end)
         (fun e =>
            if is_RequestException e
            then Some (logging_error ("Network error fetching stock data for " ++ ticker ++ " on " ++ date) ;;
                       ret None)
            else if is_ValueError e
            then Some (logging_error ("Invalid JSON response for " ++ ticker ++ " on " ++ date) ;;
                       ret None)
            else None) ;;
  match r with
  | Some df => ret df
  | None => ret PNone
  end.

Definition reference_url (ticker : string) : string :=
  ("https://api.polygon.io/v3/reference/tickers/" ++ ticker ++ "?apiKey=" ++ API_KEY)%string.

Definition fetch_currency_name (ticker : string) : M pyval :=
  let url := reference_url ticker in
  try_except
    (response <- requests_get url ;;
     if (status_code response =? 200)%Z then
       data <- response_json response ;;
       has_results <- py_in "results" data ;;
       has_name <- (if has_results
                    then results <- py_getitem data "results" ;; py_in "currency_name" results
                    else ret false) ;;
       if has_name then
         results <- py_getitem data "results" ;;
         currency_name <- py_getitem results "currency_name" ;;
         logging_info ("Currency name for ticker " ++ ticker) ;;
         ret (PJ currency_name)
       else
         logging_error ("Currency information for " ++ ticker ++ " not found.") ;;
         raise ValueError
     else
       logging_error "Error fetching data" ;;
       ret (PStr ""))
    (any_exception
       (logging_exception ("An error occurred while fetching currency name for " ++ ticker) ;;
        ret PNone)).

Definition create_price_types_df (df : pyval) : M pyval :=
  try_except
    (df <- rename_ df [("afterHours", "after_hours"); ("preMarket", "pre_market")] ;;
     cols <- columns_ df ;;
     let available_columns := filter (fun col => mem col cols) price_columns in
     match available_columns with
     | [] =>
         logging_warning "No price columns found in the provided DataFrame." ;;
         new_frame (df_empty long_columns)
     | _ =>
         df_long <- melt_ df ["symbol"; "from"] available_columns "price_type" "price" ;;
         df_long <- rename_ df_long [("symbol", "ticker"); ("from", "date")] ;;
         logging_info "Successfully transformed the DataFrame into long format." ;;
         ret df_long
     end)
    (any_exception
       (logging_exception "An error occurred while transforming the DataFrame" ;;
        ret PNone)).

Definition rates_url (base_currency : string) (symbols : list string) (date : string) : string :=
  match symbols with
  | [] => ("https://api.frankfurter.dev/v1/" ++ date ++ "?base=" ++ base_currency)%string
  | _ => ("https://api.frankfurter.dev/v1/" ++ date ++ "?base=" ++ base_currency
            ++ "&symbols=" ++ String.concat "," symbols)%string
  end.

Definition fetch_latest_currency_rates (base_currency : string) (symbols : list string)
    (date : string) : M pyval :=
  let url := rates_url base_currency symbols date in
  try_except
    (response <- requests_get url ;;
     if (status_code response =? 200)%Z then
       data <- response_json response ;;
       rates <- py_get data "rates" ;;
       items <- py_items rates ;;
       df_latest_currency_rate <- new_frame (df_of_items "currency" "exchange_rate" items) ;;
       logging_info ("Successfully fetched exchange rates for " ++ base_currency ++ " on " ++ date ++ ".") ;;
       ret df_latest_currency_rate
     else
       logging_error "Error fetching data" ;;
       new_frame (df_empty rate_columns))
    (any_exception
       (logging_exception ("An error occurred while fetching exchange rates for "
                             ++ base_currency ++ " on " ++ date) ;;
        ret PNone)).

Definition currencies_url : string := "https://api.frankfurter.dev/v1/currencies".

Definition fetch_available_currencies : M pyval :=
  try_except
    (response <- requests_get currencies_url ;;
     if (status_code response =? 200)%Z then
       df_available_currencies <- response_json response ;;
       logging_info "Successfully fetched available currencies." ;;
       items <- py_items df_available_currencies ;;
       new_frame (df_of_items "Currency Code" "Currency Name" items)
     else
       logging_error "Error fetching data" ;;
       new_frame (df_empty ["Currency Code"; "Currency Name"]))
    (any_exception
       (logging_exception "An error occurred while fetching available currencies" ;;
        ret PNone)).

Definition create_stock_currency_report (stock_df_long exchange_rates_df : pyval)
    (stock_currency : string) : M pyval :=
  try_except
    (setitem_scalar_ stock_df_long "ticker_currency" (JStr (upper stock_currency)) ;;
     merged_df <- merge_cross_ stock_df_long exchange_rates_df ;;
     price <- getitem_ merged_df "price" ;;
     exchange_rate <- getitem_ merged_df "exchange_rate" ;;
     currency_price <- lift (series_mul price exchange_rate) ;;
     setitem_series_ merged_df "currency_price" currency_price ;;
     final_df <- select_ merged_df final_columns ;;
     logging_info ("Successfully created the stock currency report for " ++ stock_currency ++ ".") ;;
     ret final_df)
    (any_exception
       (logging_exception "An error occurred while creating the stock currency report" ;;
        ret PNone)).

(** The driver, from the parsed arguments on. *)
Definition main (ticker date : string) (symbols : list string) : M unit :=
  try_except
    (logging_info ("Fetching stock data for " ++ ticker ++ " on " ++ date) ;;
     stock_df <- fetch_stock_data ticker date true ;;
     if is_None stock_df then
       logging_error ("Failed to fetch stock data for " ++ ticker ++ ". Exiting.")
     else
       stock_df_long <- create_price_types_df stock_df ;;
       logging_info "Stock data reshaped successfully." ;;
       stock_currency <- fetch_currency_name ticker ;;
       t <- truth stock_currency ;;
       if negb t then
         logging_error ("Could not fetch currency for " ++ ticker ++ ". Exiting.")
       else
         match stock_currency with
         | PJ (JStr cur) =>
             logging_info ("Stock is traded in: " ++ upper cur) ;;
             available_currencies <- fetch_available_currencies ;;
             (if is_None available_currencies
              then logging_warning "Could not retrieve available currencies."
              else ret tt) ;;
             exchange_rates_df <- fetch_latest_currency_rates cur symbols date ;;
             if is_None exchange_rates_df then
               logging_error "Failed to fetch exchange rates. Exiting."
             else
               logging_info "Exchange rates retrieved successfully." ;;
               df_stock_currency <- create_stock_currency_report stock_df_long exchange_rates_df cur ;;
               logging_info "Stock currency report generated." ;;
               to_csv_ df_stock_currency output_path ;;
               logging_info ("Stock Currency Report saved to " ++ output_path) ;;
               logging_info "You can upload this CSV file to GCS, S3, or any cloud storage."
         | _ => raise AttributeError   (* stock_currency.upper() *)
         end)
    (fun e => if is_ValueError e then Some (logging_error "Error") else None).

End Program.

(** ** Vocabulary of the statements *)

Unset Implicit Arguments.

(** *** The wide record and the long table *)

Definition wide_renames : list (string * string) :=
  [("afterHours", "after_hours"); ("preMarket", "pre_market")].

Definition long_renames : list (string * string) :=
  [("symbol", "ticker"); ("from", "date")].

(** The record behind a one-row wide frame: its field labels, as the
    reshaper reads them (after [afterHours] and [preMarket] are renamed),
    and the value of a field. *)
Definition wide_fields (df : DataFrame) : list string :=
  columns (df_rename wide_renames df).



Fixpoint distinct (cs : list string) : bool :=
  match cs with
  | [] => true
  | c :: rest => negb (mem c rest) && distinct rest
  end.

(** The record has the [symbol] and [from] the melt keeps, and no [price]. *)
Definition meltable (df : DataFrame) : bool :=
  mem "symbol" (wide_fields df) && mem "from" (wide_fields df)
  && negb (mem "price" (wide_fields df)).


Definition ticker_of (r : list json) : json := cell long_columns r "ticker".
Definition date_of (r : list json) : json := cell long_columns r "date".
Definition price_type_of (r : list json) : json := cell long_columns r "price_type".
Definition price_of (r : list json) : json := cell long_columns r "price".

(** A cell the product accepts: a number, or a missing value. *)
Definition numeric_or_null (j : json) : bool :=
  is_na j || match as_number j with Some _ => true | None => false end.

Definition labels_are (cs : list string) (df : DataFrame) : bool :=
  if list_eq_dec string_dec (columns df) cs then true else false.

(** A long price table: the columns the reshaper gives it, a cell per
    column in every row, prices numeric or missing. *)
Definition is_long_table (df : DataFrame) : bool :=
  labels_are long_columns df
  && forallb (fun r => match r with
                       | [_; _; _; p] => numeric_or_null p
                       | _ => false
                       end) (rows df).

(** *** The rate table and the report *)

(** A rate table: currency code and rate, the rate numeric or missing. *)
Definition is_rate_table (df : DataFrame) : bool :=
  labels_are rate_columns df
  && forallb (fun r => match r with
                       | [_; e] => numeric_or_null e
                       | _ => false
                       end) (rows df).

Definition currency_of (r : list json) : json := cell rate_columns r "currency".
Definition exchange_rate_of (r : list json) : json := cell rate_columns r "exchange_rate".

(** The value of [a * b] where the product is defined. *)
Definition mul_value (a b : json) : json :=
  match cell_mul a b with inr v => v | inl _ => JNull end.

(** The report row of a long price row [l] and a rate row [r]. *)
Definition report_row (cur : string) (l r : list json) : list json :=
  [date_of l; ticker_of l; price_type_of l; JStr (upper cur); price_of l;
   currency_of r; exchange_rate_of r; mul_value (price_of l) (exchange_rate_of r)].

(** The report of a long table and a rate table: the rows of the long
    table in their order, each with every rate in the order of the rates. *)
Definition report (long rates : DataFrame) (cur : string) : DataFrame :=
  mkDF final_columns
    (flat_map (fun l => map (report_row cur l) (rows rates)) (rows long)).

(** The labels of the merged frame, before currency_price is added. *)
Definition merged_columns : list string :=
  ["ticker"; "date"; "price_type"; "price"; "ticker_currency"; "currency"; "exchange_rate"].


(** A store [h'] keeps the frames of [h]. *)
Definition extends (h h' : list DataFrame) : Prop :=
  forall l d, nth_error h l = Some d -> nth_error h' l = Some d.

(** *** Answers of the providers *)

(** The stock provider did not answer, answered with an error status, or
    with a body that is not JSON. *)
Definition is_fetch_failure (n : net_result) : bool :=
  match n with
  | NetFail => true
  | NetOk r => error_status r || match body r with None => true | Some _ => false end
  end.

(** The stock provider answered with JSON that holds no "open" and "close". *)
Definition is_no_trading_data (n : net_result) : bool :=
  match n with
  | NetFail => false
  | NetOk r =>
      negb (error_status r)
      && match body r with
         | Some (JObj kvs) => negb (dict_has "open" kvs && dict_has "close" kvs)
         | Some _ => true
         | None => false
         end
  end.

(** The record of an answer of the stock provider that [fetch_stock_data]
    turns into a frame. *)
Definition snapshot_of (n : net_result) : option (list (string * json)) :=
  match n with
  | NetFail => None
  | NetOk r =>
      if error_status r then None
      else match body r with
           | Some (JObj kvs) =>
               if dict_has "open" kvs && dict_has "close" kvs then Some kvs else None
           | _ => None
           end
  end.

(** The body of an answer of the reference provider names a currency. *)
Definition has_currency_name (b : option json) : bool :=
  match b with
  | Some (JObj kvs) =>
      match dict_get "results" kvs with
      | Some (JObj res) => dict_has "currency_name" res
      | _ => false
      end
  | _ => false
  end.

(** The currency named by an answer of the reference provider. *)
Definition currency_of_answer (n : net_result) : option json :=
  match n with
  | NetFail => None
  | NetOk r =>
      if (status_code r =? 200)%Z then
        match body r with
        | Some (JObj kvs) =>
            match dict_get "results" kvs with
            | Some (JObj res) => dict_get "currency_name" res
            | _ => None
            end
        | _ => None
        end
      else None
  end.

(** The level of the most recent log record. *)
Definition last_level (st : state) : option level :=
  match log st with
  | (lv, _) :: _ => Some lv
  | [] => None
  end.

(** *** Sample data *)

Set Warnings "-inexact-float".

Definition long_ex : DataFrame :=
  mkDF long_columns
    [[JStr "AAPL"; JStr "2024-10-03"; JStr "open"; JNum 150%float];
     [JStr "AAPL"; JStr "2024-10-03"; JStr "close"; JNum 152%float]].

Definition rates_ex : DataFrame :=
  mkDF rate_columns [[JStr "EUR"; JNum 0.92%float]; [JStr "GBP"; JNum 0.78%float]].

Definition store_ex : state := mkState [long_ex; rates_ex] [] [].




Definition stock_body_ex : list (string * json) :=
  [("status", JStr "OK"); ("from", JStr "2024-10-03"); ("symbol", JStr "AAPL");
   ("open", JNum 150%float); ("high", JNum 153%float); ("close", JNum 152%float);
   ("afterHours", JNum 151%float)].


Definition reference_body_ex : json :=
  JObj [("results", JObj [("ticker", JStr "AAPL"); ("currency_name", JStr "usd")])].

Definition rates_body_ex : json :=
  JObj [("base", JStr "USD");
        ("rates", JObj [("EUR", JNum 0.92%float); ("GBP", JNum 0.78%float)])].

Definition ok (b : json) : net_result := NetOk (mkResponse 200 "" (Some b)).

Definition unavailable : net_result := NetOk (mkResponse 503 "Service Unavailable" None).

(** Providers that answer the stock call with [stock], the reference call
    with [ref], the currency list with a one-entry list and the rate call
    with [fx]. *)
Definition network_ex (stock ref fx : net_result) (url : string) : net_result :=
  if String.prefix "https://api.polygon.io/v1/open-close/" url then stock
  else if String.prefix "https://api.polygon.io/v3/reference/tickers/" url then ref
  else if String.eqb url currencies_url then ok (JObj [("EUR", JStr "Euro")])
  else fx.


(** The stock provider answers, with no prices in the body. *)
Definition network_closed : string -> net_result :=
  network_ex (ok (JObj [("status", JStr "OK"); ("symbol", JStr "AAPL")]))
    (ok reference_body_ex) (ok rates_body_ex).

(** The reference provider answers 200 with no currency_name. *)
Definition network_no_currency : string -> net_result :=
  network_ex (ok (JObj stock_body_ex)) (ok (JObj [("results", JObj [])])) (ok rates_body_ex).

(** The stock provider answers with open and close but no symbol. *)
Definition network_no_symbol : string -> net_result :=
  network_ex (ok (JObj [("open", JNum 150%float); ("close", JNum 152%float)]))
    (ok reference_body_ex) (ok rates_body_ex).

(** *** What a computation leaves alone *)

(** Every run of [m] takes a state to one related to it by [R], whether
    [m] returns or raises. *)
Definition respects (R : state -> state -> Prop) {A} (m : M A) : Prop :=
  forall st, R st (snd (m st)).

(** The files are as they were, and the store has its former frames at
    their locations, with new frames, if any, at the end. *)
Definition grown (st st' : state) : Prop :=
  files st' = files st /\ exists t, heap st' = heap st ++ t.

(** The files are as they were, and the store has as many frames. *)
Definition same_files (st st' : state) : Prop :=
  files st' = files st /\ List.length (heap st) <= List.length (heap st').

(** No exception leaves [m]. *)
Definition returns {A} (m : M A) : Prop :=
  forall st, exists a, fst (m st) = Ret a.

(** Only exceptions of the classes [P] leave [m]. *)
Definition raises_only (P : exn -> bool) {A} (m : M A) : Prop :=
  forall st e, fst (m st) = Raise e -> P e = true.

Definition no_exception (e : exn) : bool := false.

(** *** How a run of the driver can end *)

(** The report was saved: a frame with the report's columns is at
    [output_path], the other files are as before, and the last log record
    is the closing message. *)
Definition report_saved (before : list (string * DataFrame)) (st' : state) : Prop :=
  exists rep,
    columns rep = final_columns /\
    files st' = (output_path, rep)
                  :: filter (fun f => negb (String.eqb (fst f) output_path)) before /\
    hd_error (log st')
    = Some (INFO, "You can upload this CSV file to GCS, S3, or any cloud storage.").

(** The run was given up: no file was touched and the last log record is
    an error. *)
Definition aborted (before : list (string * DataFrame)) (st' : state) : Prop :=
  files st' = before /\ last_level st' = Some ERROR.

Definition main_outcome (before : list (string * DataFrame))
    (res : outcome unit * state) : Prop :=
  match fst res with
  | Ret _ => report_saved before (snd res) \/ aborted before (snd res)
  | Raise e => e = AttributeError /\ files (snd res) = before
  end.

(** Only the log differs. *)
Definition only_logged (st st' : state) : Prop :=
  heap st' = heap st /\ files st' = files st.

(** *** What the fetchers make of an answer *)

(** The value [fetch_currency_name] returns for an answer of the reference
    provider. *)
Definition currency_result (n : net_result) : pyval :=
  match n with
  | NetFail => PNone
  | NetOk r =>
      if (status_code r =? 200)%Z
      then match currency_of_answer n with Some v => PJ v | None => PNone end
      else PStr ""
  end.

(** [not j] for a JSON value. *)
Definition falsy (j : json) : bool :=
  match j with
  | JNull => true
  | JBool b => negb b
  | JNum x => PrimFloat.eqb x 0%float
  | JStr s => String.eqb s ""
  | JArr l => match l with [] => true | _ => false end
  | JObj kvs => match kvs with [] => true | _ => false end
  end.

Definition falsy_value (v : pyval) : bool :=
  match v with PJ j => falsy j | PFrame _ => false end.

Definition is_string (j : json) : bool :=
  match j with JStr _ => true | _ => false end.

(** The FX provider did not answer, or answered 200 with something the rate
    fetcher cannot read: text that is not JSON, a body that is no object, or
    a [rates] that is no object. *)
Definition is_rates_failure (n : net_result) : bool :=
  match n with
  | NetFail => true
  | NetOk r =>
      (status_code r =? 200)%Z
      && match body r with
         | Some (JObj kvs) =>
             match dict_get "rates" kvs with
             | Some (JObj _) | None => false
             | Some _ => true
             end
         | _ => true
         end
  end.

(** The long row of the wide row [r] for the price column [c]. *)
Definition long_row (cs : list string) (r : list json) (c : string) : list json :=
  [cell cs r "symbol"; cell cs r "from"; JStr c; cell cs r c].

(** The price columns a wide frame has. *)
Definition present_prices (df : DataFrame) : list string :=
  filter (fun col => mem col (wide_fields df)) price_columns.

(** The long table of a wide frame: a block of rows per price column. *)
Definition long_of (df : DataFrame) : DataFrame :=
  mkDF long_columns
    (flat_map (fun c => map (fun r => long_row (wide_fields df) r c) (rows df))
       (present_prices df)).




(** A binary64 value with no fractional part. *)
Definition is_whole (x : float) : bool :=
  match Prim2SF x with
  | S754_zero _ => true
  | S754_finite _ m e => (0 <=? e)%Z || (Z.land (Z.pos m) (Z.ones (- e)) =? 0)%Z
  | _ => false
  end.

(** A number with a fractional part: a column that holds one is a column
    of binary64 values. *)
Definition fractional (j : json) : bool :=
  match j with JNum x => negb (is_whole x) | _ => false end.

(** *** More sample data *)

(** A wide frame of two days. *)
Definition wide_two_days : DataFrame :=
  mkDF ["symbol"; "from"; "open"; "close"; "afterHours"]
    [[JStr "AAPL"; JStr "2024-10-03"; JNum 150%float; JNum 152%float; JNum 151%float];
     [JStr "AAPL"; JStr "2024-10-04"; JNum 153%float; JNum 155%float; JNum 154%float]].

(** A frame without any price column, and without a symbol. *)
Definition wide_no_prices : DataFrame :=
  mkDF ["status"; "volume"] [[JStr "OK"; JNum 1000%float]].

(** A frame with prices and no symbol. *)
Definition wide_no_symbol : DataFrame :=
  df_of_record [("open", JNum 150%float); ("close", JNum 152%float)].

(** A long table with a price that is text. *)
Definition long_text_price : DataFrame :=
  mkDF long_columns
    [[JStr "AAPL"; JStr "2024-10-03"; JStr "open"; JNum 150%float];
     [JStr "AAPL"; JStr "2024-10-03"; JStr "close"; JStr "n/a"]].

Definition store_text_price : state := mkState [long_text_price; rates_ex] [] [].

(** The providers of a run that goes through. *)
Definition network_fine : string -> net_result :=
  network_ex (ok (JObj stock_body_ex)) (ok reference_body_ex) (ok rates_body_ex).

(** The FX provider answers 200 with an object that has no rates. *)
Definition network_no_rates : string -> net_result :=
  network_ex (ok (JObj stock_body_ex)) (ok reference_body_ex) (ok (JObj [("base", JStr "USD")])).

(** The FX provider answers 200 with rates that are a list. *)
Definition network_rates_list : string -> net_result :=
  network_ex (ok (JObj stock_body_ex)) (ok reference_body_ex)
    (ok (JObj [("rates", JArr [JNum 0.92%float])])).

(** The reference provider answers 503. *)
Definition network_no_reference : string -> net_result :=
  network_ex (ok (JObj stock_body_ex)) unavailable (ok rates_body_ex).

(** The reference provider names the currency by a number. *)
Definition network_currency_number : string -> net_result :=
  network_ex (ok (JObj stock_body_ex))
    (ok (JObj [("results", JObj [("currency_name", JNum 840%float)])])) (ok rates_body_ex).

(** ** Store lemmas *)

(** New frames go to the end of the store; [upd] keeps its length and the
    other locations. *)

Lemma nth_error_snoc (h : list DataFrame) (d : DataFrame) :
  nth_error (h ++ [d]) (List.length h) = Some d.
Proof.
  induction h as [|x h IH]; simpl; [reflexivity | exact IH].
Qed.

Lemma nth_error_snoc_old (h : list DataFrame) (d x : DataFrame) (l : loc) :
  nth_error h l = Some d -> nth_error (h ++ [x]) l = Some d.
Proof.
  intros H. rewrite nth_error_app1; [exact H|].
  apply nth_error_Some. rewrite H. discriminate.
Qed.

Lemma nth_error_snoc2 (h : list DataFrame) (d e : DataFrame) :
  nth_error (h ++ [d; e]) (S (List.length h)) = Some e.
Proof.
  induction h as [|x h IH]; simpl; [reflexivity | exact IH].
Qed.

Lemma nth_error_snoc3 (h : list DataFrame) (d e f : DataFrame) :
  nth_error (h ++ [d; e; f]) (S (S (List.length h))) = Some f.
Proof.
  induction h as [|x h IH]; simpl; [reflexivity | exact IH].
Qed.

Lemma length_upd (l : loc) (d : DataFrame) (h : list DataFrame) :
  List.length (upd l d h) = List.length h.
Proof.
  revert l; induction h as [|x h IH]; intros [|l]; simpl; auto.
Qed.

Lemma nth_error_upd_same (h : list DataFrame) (l : loc) (d d' : DataFrame) :
  nth_error h l = Some d -> nth_error (upd l d' h) l = Some d'.
Proof.
  revert l; induction h as [|x h IH]; intros [|l] H; simpl in *; try discriminate; auto.
Qed.

Lemma nth_error_upd_other (h : list DataFrame) (l l' : loc) (d' : DataFrame) :
  l <> l' -> nth_error (upd l d' h) l' = nth_error h l'.
Proof.
  revert l l'; induction h as [|x h IH]; intros [|l] [|l'] H; simpl;
    try reflexivity; try congruence.
  apply IH. congruence.
Qed.

Lemma nth_error_lt (h : list DataFrame) (l : loc) (d : DataFrame) :
  nth_error h l = Some d -> l < List.length h.
Proof.
  intros H. apply nth_error_Some. rewrite H. discriminate.
Qed.

(** ** Running the monad *)

(** One step of a computation whose first action is known. *)

Lemma bind_run {A B} (m : M A) (f : A -> M B) (st st' : state) (a : A) :
  m st = (Ret a, st') -> bind m f st = f a st'.
Proof. intros H. unfold bind. now rewrite H. Qed.

Lemma bind_raise {A B} (m : M A) (f : A -> M B) (st st' : state) (e : exn) :
  m st = (Raise e, st') -> bind m f st = (Raise e, st').
Proof. intros H. unfold bind. now rewrite H. Qed.

Lemma try_ret {A} (m : M A) (h : exn -> option (M A)) (st st' : state) (a : A) :
  m st = (Ret a, st') -> try_except m h st = (Ret a, st').
Proof. intros H. unfold try_except. now rewrite H. Qed.

Lemma try_caught {A} (m : M A) (h : exn -> option (M A)) (k : M A)
    (st st' : state) (e : exn) :
  m st = (Raise e, st') -> h e = Some k -> try_except m h st = k st'.
Proof. intros H Hh. unfold try_except. now rewrite H, Hh. Qed.

Lemma try_bind_run {A B} (m : M A) (f : A -> M B) (hd : exn -> option (M B))
    (st st' : state) (a : A) :
  m st = (Ret a, st') -> try_except (bind m f) hd st = try_except (f a) hd st'.
Proof. intros H. unfold try_except, bind. now rewrite H. Qed.

Lemma warn_if_run (b : bool) (msg : string) (h : list DataFrame)
    (lg : list (level * string)) (fs : list (string * DataFrame)) :
  exists lg',
    (if b then logging_warning msg else ret tt) (mkState h lg fs) = (Ret tt, mkState h lg' fs).
Proof. destruct b; eexists; reflexivity. Qed.

Section FrameOps.

Variables (h : list DataFrame) (lg : list (level * string)) (fs : list (string * DataFrame)).
Variables (l : loc) (df : DataFrame).
Hypothesis Hl : nth_error h l = Some df.

Lemma frame_of_run (err : exn) :
  frame_of err (PFrame l) (mkState h lg fs) = (Ret (l, df), mkState h lg fs).
Proof. unfold frame_of. cbn [heap]. now rewrite Hl. Qed.

Lemma setitem_scalar_run (c : string) (x : json) :
  setitem_scalar_ (PFrame l) c x (mkState h lg fs)
  = (Ret tt, mkState (upd l (df_setitem_scalar c x df) h) lg fs).
Proof. unfold setitem_scalar_. now rewrite (bind_run _ _ _ _ _ (frame_of_run _)). Qed.

Lemma setitem_series_run (c : string) (xs : list json) :
  setitem_series_ (PFrame l) c xs (mkState h lg fs)
  = (Ret tt, mkState (upd l (df_setitem_series c xs df) h) lg fs).
Proof. unfold setitem_series_. now rewrite (bind_run _ _ _ _ _ (frame_of_run _)). Qed.

Lemma getitem_run (c : string) :
  getitem_ (PFrame l) c (mkState h lg fs) = lift (df_getitem c df) (mkState h lg fs).
Proof. unfold getitem_. now rewrite (bind_run _ _ _ _ _ (frame_of_run _)). Qed.

Lemma select_run (cs : list string) (d : DataFrame) :
  df_select cs df = inr d ->
  select_ (PFrame l) cs (mkState h lg fs)
  = (Ret (PFrame (List.length h)), mkState (h ++ [d]) lg fs).
Proof.
  intros Hd. unfold select_. rewrite (bind_run _ _ _ _ _ (frame_of_run _)).
  cbn [snd]. rewrite Hd. reflexivity.
Qed.

Lemma merge_cross_run (l2 : loc) (df2 : DataFrame) :
  nth_error h l2 = Some df2 ->
  merge_cross_ (PFrame l) (PFrame l2) (mkState h lg fs)
  = (Ret (PFrame (List.length h)), mkState (h ++ [df_merge_cross df df2]) lg fs).
Proof.
  intros H2. unfold merge_cross_. rewrite (bind_run _ _ _ _ _ (frame_of_run _)).
  unfold bind, frame_of. cbn [heap]. now rewrite H2.
Qed.

Lemma to_csv_run (path : string) :
  to_csv_ (PFrame l) path (mkState h lg fs)
  = (Ret tt,
     mkState h lg ((path, df) :: filter (fun f => negb (String.eqb (fst f) path)) fs)).
Proof. unfold to_csv_. now rewrite (bind_run _ _ _ _ _ (frame_of_run _)). Qed.

End FrameOps.

(** ** The reshaper *)

(** What [create_price_types_df] does with a frame of the store, in terms
    of the frame operations alone. *)
Lemma create_price_types_df_run (st : state) (l : loc) (df : DataFrame) :
  nth_error (heap st) l = Some df ->
  create_price_types_df (PFrame l) st =
    let df1 := df_rename wide_renames df in
    match filter (fun col => mem col (columns df1)) price_columns with
    | [] =>
        (Ret (PFrame (S (List.length (heap st)))),
         mkState (heap st ++ [df1] ++ [df_empty long_columns])
           ((WARNING, "No price columns found in the provided DataFrame.") :: log st)
           (files st))
    | c :: cs =>
        match df_melt ["symbol"; "from"] (c :: cs) "price_type" "price" df1 with
        | inr d =>
            (Ret (PFrame (S (S (List.length (heap st))))),
             mkState (heap st ++ [df1] ++ [d] ++ [df_rename long_renames d])
               ((INFO, "Successfully transformed the DataFrame into long format.") :: log st)
               (files st))
        | inl _ =>
            (Ret PNone,
             mkState (heap st ++ [df1])
               ((ERROR, "An error occurred while transforming the DataFrame") :: log st)
               (files st))
        end
    end.
Proof.
  intros H.
  unfold create_price_types_df, try_except, rename_, columns_, melt_, bind, frame_of, new_frame, ret.
  cbn zeta.
  rewrite H. cbn [snd fst heap log files].
  rewrite nth_error_snoc. cbn [snd fst heap log files].
  fold wide_renames.
  destruct (filter _ price_columns) as [|c cs] eqn:Ef; cbv beta iota.
  - unfold logging_warning, logging. cbn [heap log files].
    rewrite length_app. cbn [List.length]. rewrite Nat.add_1_r.
    rewrite <- app_assoc. reflexivity.
  - cbn [heap]. rewrite nth_error_snoc. cbn [snd fst heap log files].
    destruct (df_melt _ _ _ _ _) as [e|d]; cbn [lift raise ret heap log files any_exception].
    + reflexivity.
    + cbn [heap]. rewrite (nth_error_snoc (heap st ++ [df_rename wide_renames df]) d).
      cbn [snd fst heap log files].
      unfold logging_info, logging. cbn [heap log files].
      rewrite !length_app. cbn [List.length]. rewrite !Nat.add_1_r.
      rewrite <- !app_assoc. reflexivity.
Qed.

Lemma forallb_mem_filter (cs ps : list string) :
  forallb (fun c => mem c cs) (filter (fun c => mem c cs) ps) = true.
Proof.
  apply forallb_forall. intros x Hx. apply filter_In in Hx. apply Hx.
Qed.








(** ** The report builder *)

Lemma labels_are_true (cs : list string) (df : DataFrame) :
  labels_are cs df = true -> columns df = cs.
Proof.
  unfold labels_are. destruct (list_eq_dec string_dec (columns df) cs); [auto | discriminate].
Qed.

Lemma is_long_table_inv (df : DataFrame) :
  is_long_table df = true ->
  columns df = long_columns /\
  Forall (fun r => exists a b c p, r = [a; b; c; p] /\ numeric_or_null p = true) (rows df).
Proof.
  unfold is_long_table. intros H. apply andb_prop in H. destruct H as [Hc Hr].
  split; [now apply labels_are_true|].
  apply Forall_forall. intros r Hin.
  rewrite forallb_forall in Hr. specialize (Hr r Hin).
  destruct r as [|a [|b [|c [|p [|]]]]]; try discriminate.
  now exists a, b, c, p.
Qed.

Lemma is_rate_table_inv (df : DataFrame) :
  is_rate_table df = true ->
  columns df = rate_columns /\
  Forall (fun r => exists x e, r = [x; e] /\ numeric_or_null e = true) (rows df).
Proof.
  unfold is_rate_table. intros H. apply andb_prop in H. destruct H as [Hc Hr].
  split; [now apply labels_are_true|].
  apply Forall_forall. intros r Hin.
  rewrite forallb_forall in Hr. specialize (Hr r Hin).
  destruct r as [|x [|e [|]]]; try discriminate.
  now exists x, e.
Qed.

Lemma cell_mul_defined (a b : json) :
  numeric_or_null a = true -> numeric_or_null b = true ->
  cell_mul a b = inr (mul_value a b).
Proof.
  unfold numeric_or_null, mul_value, cell_mul. intros Ha Hb.
  destruct (is_na a); [reflexivity|]. destruct (is_na b); [reflexivity|].
  simpl in *. destruct (as_number a); [|discriminate].
  destruct (as_number b); [reflexivity | discriminate].
Qed.

Lemma series_mul_map (f g : list json -> json) (rs : list (list json)) :
  Forall (fun r => numeric_or_null (f r) = true /\ numeric_or_null (g r) = true) rs ->
  series_mul (map f rs) (map g rs) = inr (map (fun r => mul_value (f r) (g r)) rs).
Proof.
  induction 1 as [|r rs [Hf Hg] _ IH]; simpl; [reflexivity|].
  rewrite (cell_mul_defined _ _ Hf Hg), IH. reflexivity.
Qed.

Lemma combine_map_self {A B} (f : A -> B) (l : list A) :
  combine l (map f l) = map (fun x => (x, f x)) l.
Proof.
  induction l as [|a l IH]; simpl; [reflexivity | now rewrite IH].
Qed.

Lemma map_flat_map {A B C} (g : B -> C) (h : A -> list B) (l : list A) :
  map g (flat_map h l) = flat_map (fun a => map g (h a)) l.
Proof.
  induction l as [|a l IH]; simpl; [reflexivity|].
  now rewrite map_app, IH.
Qed.

Lemma flat_map_ext_in {A B} (f g : A -> list B) (l : list A) :
  (forall a, In a l -> f a = g a) -> flat_map f l = flat_map g l.
Proof.
  induction l as [|a l IH]; simpl; intros H; [reflexivity|].
  rewrite (H a) by now left. rewrite IH; [reflexivity|].
  intros x Hx. apply H. now right.
Qed.

Lemma Forall_flat_map {A B} (P : B -> Prop) (h : A -> list B) (l : list A) :
  (forall a, In a l -> Forall P (h a)) -> Forall P (flat_map h l).
Proof.
  induction l as [|a l IH]; simpl; intros H; [constructor|].
  apply Forall_app. split; [apply H; now left|].
  apply IH. intros x Hx. apply H. now right.
Qed.

Lemma upd_snoc (h : list DataFrame) (d d' : DataFrame) :
  upd (List.length h) d' (h ++ [d]) = h ++ [d'].
Proof.
  induction h as [|x h IH]; simpl; [reflexivity | now rewrite IH].
Qed.

Lemma flat_map_map {A B C} (f : B -> list C) (g : A -> B) (l : list A) :
  flat_map f (map g l) = flat_map (fun x => f (g x)) l.
Proof.
  induction l as [|a l IH]; simpl; [reflexivity | now rewrite IH].
Qed.

Lemma flat_map_nil {A B} (l : list A) : flat_map (fun _ : A => @nil B) l = [].
Proof. induction l; simpl; auto. Qed.

(** The frame operations of the report builder on a long price table and a
    rate table: both columns are found, the product is defined, and the
    selected frame is [report]. *)
Lemma report_frames (long rates : DataFrame) (cur : string) :
  is_long_table long = true ->
  is_rate_table rates = true ->
  let merged :=
    df_merge_cross (df_setitem_scalar "ticker_currency" (JStr (upper cur)) long) rates in
  exists price rate prod,
    df_getitem "price" merged = inr price /\
    df_getitem "exchange_rate" merged = inr rate /\
    series_mul price rate = inr prod /\
    df_select final_columns (df_setitem_series "currency_price" prod merged)
    = inr (report long rates cur).
Proof.
  intros Hl Hr.
  apply is_long_table_inv in Hl. destruct Hl as [Hlc Hlr].
  apply is_rate_table_inv in Hr. destruct Hr as [Hrc Hrr].
  destruct long as [lc lrows], rates as [rc rrows]. cbn [columns rows] in *. subst lc rc.
  cbv zeta.
  unfold df_merge_cross, df_setitem_scalar, df_getitem. cbn [columns rows].
  change (map (suffix_overlap rate_columns "_x") (set_label "ticker_currency" long_columns)
          ++ map (suffix_overlap (set_label "ticker_currency" long_columns) "_y") rate_columns)
    with merged_columns.
  change (index_of "ticker_currency" long_columns) with (@None nat).
  change (index_of "price" merged_columns) with (Some 3).
  change (index_of "exchange_rate" merged_columns) with (Some 6).
  cbn [set_cell].
  rewrite flat_map_map.
  set (mrows := flat_map _ lrows).
  assert (Hm : Forall (fun m => exists a b c p x e,
                         m = [a; b; c; p; JStr (upper cur); x; e]
                         /\ numeric_or_null p = true /\ numeric_or_null e = true) mrows).
  { apply Forall_flat_map. intros l Hin.
    rewrite Forall_forall in Hlr. destruct (Hlr l Hin) as (a & b & c & p & -> & Hp).
    apply Forall_forall. intros m Hm. apply in_map_iff in Hm.
    destruct Hm as [r [<- Hr]].
    rewrite Forall_forall in Hrr. destruct (Hrr r Hr) as (x & e & -> & He).
    exists a, b, c, p, x, e. auto. }
  eexists _, _, _. split; [reflexivity|]. split; [reflexivity|].
  split.
  { apply series_mul_map. eapply Forall_impl; [|exact Hm].
    intros m (a & b & c & p & x & e & -> & Hp & He). auto. }
  unfold df_select, df_setitem_series. cbn [columns rows].
  change (forallb (fun c => mem c (set_label "currency_price" merged_columns)) final_columns)
    with true.
  cbv iota. unfold report. cbn [rows]. f_equal. f_equal.
  change (index_of "currency_price" merged_columns) with (@None nat).
  rewrite combine_map_self, !map_map. cbn [fst snd set_cell].
  unfold mrows. rewrite map_flat_map.
  apply flat_map_ext_in. intros l Hin.
  rewrite Forall_forall in Hlr. destruct (Hlr l Hin) as (a & b & c & p & -> & Hp).
  rewrite map_map. apply map_ext_in. intros r Hr.
  rewrite Forall_forall in Hrr. destruct (Hrr r Hr) as (x & e & -> & He).
  reflexivity.
Qed.

Lemma long_rate_distinct (h : list DataFrame) (l1 l2 : loc) (long rates : DataFrame) :
  nth_error h l1 = Some long -> nth_error h l2 = Some rates ->
  is_long_table long = true -> is_rate_table rates = true ->
  l1 <> l2.
Proof.
  intros H1 H2 Hl Hr E. subst l2. rewrite H1 in H2. injection H2 as <-.
  apply is_long_table_inv in Hl. apply is_rate_table_inv in Hr.
  destruct Hl as [Hl _], Hr as [Hr _]. rewrite Hl in Hr. discriminate.
Qed.

(** What [create_stock_currency_report] does with a long price table and a
    rate table of the store: the long table gets its [ticker_currency]
    column in place, the merged frame and the report are new objects, and
    the report is returned. *)
Lemma create_stock_currency_report_run (st : state) (l1 l2 : loc)
    (long rates : DataFrame) (cur : string) :
  nth_error (heap st) l1 = Some long ->
  nth_error (heap st) l2 = Some rates ->
  is_long_table long = true ->
  is_rate_table rates = true ->
  exists merged,
    create_stock_currency_report (PFrame l1) (PFrame l2) cur st =
      (Ret (PFrame (S (List.length (heap st)))),
       mkState
         (upd l1 (df_setitem_scalar "ticker_currency" (JStr (upper cur)) long) (heap st)
            ++ [merged; report long rates cur])
         ((INFO, ("Successfully created the stock currency report for " ++ cur ++ ".")%string)
            :: log st)
         (files st)).
Proof.
  destruct st as [h lg fs]. cbn [heap log files].
  intros H1 H2 Hl Hr.
  pose proof (long_rate_distinct _ _ _ _ _ H1 H2 Hl Hr) as Hne.
  destruct (report_frames long rates cur Hl Hr) as (price & rate & prod & Hp & He & Hm & Hs).
  cbv zeta in Hp, He, Hs.
  set (long' := df_setitem_scalar "ticker_currency" (JStr (upper cur)) long) in *.
  set (merged := df_merge_cross long' rates) in *.
  set (h1 := upd l1 long' h).
  assert (H1' : nth_error h1 l1 = Some long') by (apply nth_error_upd_same with long; exact H1).
  assert (H2' : nth_error h1 l2 = Some rates)
    by (unfold h1; rewrite nth_error_upd_other; assumption).
  assert (Hlen : List.length h1 = List.length h) by apply length_upd.
  exists (df_setitem_series "currency_price" prod merged).
  unfold create_stock_currency_report. apply try_ret.
  rewrite (bind_run _ _ _ _ _ (setitem_scalar_run h lg fs l1 long H1 _ _)).
  fold long' h1.
  rewrite (bind_run _ _ _ _ _ (merge_cross_run h1 lg fs l1 long' H1' l2 rates H2')).
  fold merged.
  pose proof (nth_error_snoc h1 merged) as Hmg.
  rewrite (bind_run _ _ _ (mkState (h1 ++ [merged]) lg fs) price).
  2:{ rewrite (getitem_run _ lg fs _ _ Hmg), Hp. reflexivity. }
  rewrite (bind_run _ _ _ (mkState (h1 ++ [merged]) lg fs) rate).
  2:{ rewrite (getitem_run _ lg fs _ _ Hmg), He. reflexivity. }
  rewrite Hm. rewrite (bind_run _ _ _ (mkState (h1 ++ [merged]) lg fs) prod) by reflexivity.
  rewrite (bind_run _ _ _ _ _ (setitem_series_run _ lg fs _ _ Hmg _ _)).
  rewrite upd_snoc.
  pose proof (nth_error_snoc h1 (df_setitem_series "currency_price" prod merged)) as Hmg'.
  rewrite (bind_run _ _ _ _ _ (select_run _ lg fs _ _ Hmg' _ _ Hs)).
  unfold bind, logging_info, logging, ret. cbn [heap log files].
  rewrite length_app, Hlen. cbn [List.length]. rewrite Nat.add_1_r.
  rewrite <- app_assoc. reflexivity.
Qed.

Lemma length_cross {A B C} (f : A -> B -> C) (xs : list A) (ys : list B) :
  List.length (flat_map (fun x => map (f x) ys) xs) = List.length xs * List.length ys.
Proof.
  induction xs as [|x xs IH]; simpl; [reflexivity|].
  now rewrite length_app, length_map, IH.
Qed.

(** C2.  For a long price table and a rate table, the report builder
    returns a report (not its error value) with exactly (rows of the long
    table) x (rows of the rate table) rows; with no rates the report is
    empty. *)
Theorem report_size (st : state) (l1 l2 : loc) (long rates : DataFrame) (cur : string) :
  nth_error (heap st) l1 = Some long ->
  nth_error (heap st) l2 = Some rates ->
  is_long_table long = true ->
  is_rate_table rates = true ->
  exists l' rep st',
    create_stock_currency_report (PFrame l1) (PFrame l2) cur st = (Ret (PFrame l'), st') /\
    nth_error (heap st') l' = Some rep /\
    List.length (rows rep) = List.length (rows long) * List.length (rows rates) /\
    (rows rates = [] -> rows rep = []).
Proof.
  intros H1 H2 Hl Hr.
  destruct (create_stock_currency_report_run st l1 l2 long rates cur H1 H2 Hl Hr) as [m Hrun].
  eexists _, (report long rates cur), _. split; [exact Hrun|].
  cbn [heap]. split.
  { rewrite <- (length_upd l1 (df_setitem_scalar "ticker_currency" (JStr (upper cur)) long)).
    apply nth_error_snoc2. }
  unfold report. cbn [rows]. split; [apply length_cross|].
  intros E. rewrite E. cbn [map]. induction (rows long); simpl; auto.
Qed.

(** Two prices against two rates. *)
Lemma report_size_witness :
  (nth_error (heap store_ex) 0 = Some long_ex /\
   nth_error (heap store_ex) 1 = Some rates_ex /\
   is_long_table long_ex = true /\ is_rate_table rates_ex = true) /\
  exists l' rep st',
    create_stock_currency_report (PFrame 0) (PFrame 1) "usd" store_ex = (Ret (PFrame l'), st') /\
    nth_error (heap st') l' = Some rep /\
    List.length (rows rep) = List.length (rows long_ex) * List.length (rows rates_ex) /\
    (rows rates_ex = [] -> rows rep = []).
Proof.
  split; [repeat split; reflexivity|].
  apply (report_size store_ex 0 1 long_ex rates_ex "usd"); reflexivity.
Defined.












(** The reshaper writes to no frame of the store. *)
Lemma create_price_types_df_frame (v : pyval) (st : state) (l : loc) :
  l < List.length (heap st) ->
  nth_error (heap (snd (create_price_types_df v st))) l = nth_error (heap st) l.
Proof.
  intros Hlt.
  assert (Hfail : forall e, frame_of e v st = (Raise e, st) ->
            heap (snd (create_price_types_df v st)) = heap st).
  { intros e He. unfold create_price_types_df, rename_.
    rewrite (try_caught _ _
               (logging_exception "An error occurred while transforming the DataFrame" ;;
                ret PNone) st st AttributeError).
    - reflexivity.
    - rewrite (bind_raise _ _ st st AttributeError); [reflexivity|].
      rewrite (bind_raise _ _ st st AttributeError); [reflexivity|].
      unfold frame_of in *. destruct v as [j|l0]; [reflexivity|].
      destruct (nth_error (heap st) l0); [discriminate He | reflexivity].
    - reflexivity. }
  destruct v as [j|l0].
  - rewrite (Hfail AttributeError); reflexivity.
  - destruct (nth_error (heap st) l0) as [df|] eqn:E.
    + rewrite (create_price_types_df_run st l0 df E). cbv zeta.
      destruct (filter _ price_columns); [|destruct (df_melt _ _ _ _ _)];
        cbn [snd heap]; rewrite nth_error_app1; auto.
    + rewrite (Hfail AttributeError); [reflexivity|].
      unfold frame_of. now rewrite E.
Qed.

(** C9, as the code has it.  The report builder assigns the
    ticker_currency column of the long price table it is handed: after the
    call that table has one more column, holding the upper-cased
    [stock_currency] in every row, after its former cells; every other frame
    of the store, the rate table among them, is as it was.  The reshaper
    changes no frame of the store. *)
Theorem report_builder_frame_effect (st : state) (l1 l2 : loc) (long rates : DataFrame)
    (cur : string) :
  nth_error (heap st) l1 = Some long ->
  nth_error (heap st) l2 = Some rates ->
  is_long_table long = true ->
  is_rate_table rates = true ->
  let st' := snd (create_stock_currency_report (PFrame l1) (PFrame l2) cur st) in
  nth_error (heap st') l1
  = Some (mkDF (columns long ++ ["ticker_currency"])
            (map (fun r => r ++ [JStr (upper cur)]) (rows long))) /\
  nth_error (heap st') l2 = Some rates /\
  (forall l, l <> l1 -> l < List.length (heap st) ->
             nth_error (heap st') l = nth_error (heap st) l) /\
  (forall v l, l < List.length (heap st) ->
               nth_error (heap (snd (create_price_types_df v st))) l = nth_error (heap st) l).
Proof.
  intros H1 H2 Hl Hr st'.
  pose proof (long_rate_distinct _ _ _ _ _ H1 H2 Hl Hr) as Hne.
  destruct (create_stock_currency_report_run st l1 l2 long rates cur H1 H2 Hl Hr) as [m Hm].
  unfold st'. rewrite Hm. cbn [snd heap].
  assert (Hother : forall l, l <> l1 -> l < List.length (heap st) ->
            nth_error
              (upd l1 (df_setitem_scalar "ticker_currency" (JStr (upper cur)) long) (heap st)
                 ++ [m; report long rates cur]) l
            = nth_error (heap st) l).
  { intros l Hneq Hlt. rewrite nth_error_app1 by (rewrite length_upd; exact Hlt).
    apply nth_error_upd_other. congruence. }
  split; [|split; [|split]].
  - rewrite nth_error_app1
      by (rewrite length_upd; apply nth_error_lt with long; exact H1).
    rewrite (nth_error_upd_same _ _ long _ H1). f_equal.
    apply is_long_table_inv in Hl. destruct Hl as [Hc _].
    unfold df_setitem_scalar. rewrite Hc. reflexivity.
  - rewrite Hother; [exact H2 | congruence | apply nth_error_lt with rates; exact H2].
  - exact Hother.
  - intros v l Hlt. apply create_price_types_df_frame. exact Hlt.
Qed.

(** The sample store: the long table at 0, the rates at 1. *)
Lemma report_builder_frame_effect_witness :
  (nth_error (heap store_ex) 0 = Some long_ex /\
   nth_error (heap store_ex) 1 = Some rates_ex /\
   is_long_table long_ex = true /\ is_rate_table rates_ex = true) /\
  let st' := snd (create_stock_currency_report (PFrame 0) (PFrame 1) "usd" store_ex) in
  nth_error (heap st') 0
  = Some (mkDF (columns long_ex ++ ["ticker_currency"])
            (map (fun r => r ++ [JStr (upper "usd")]) (rows long_ex))) /\
  nth_error (heap st') 1 = Some rates_ex /\
  (forall l, l <> 0 -> l < List.length (heap store_ex) ->
             nth_error (heap st') l = nth_error (heap store_ex) l) /\
  (forall v l, l < List.length (heap store_ex) ->
               nth_error (heap (snd (create_price_types_df v store_ex))) l
               = nth_error (heap store_ex) l).
Proof.
  split; [repeat split; reflexivity|].
  apply (report_builder_frame_effect store_ex 0 1 long_ex rates_ex "usd"); reflexivity.
Defined.

(** C9 as stated fails: after the call the long price table handed to the
    report builder is not the table it was. *)
Lemma report_builder_changes_input :
  ~ (nth_error (heap (snd (create_stock_currency_report (PFrame 0) (PFrame 1) "usd" store_ex))) 0
     = nth_error (heap store_ex) 0).
Proof.
  vm_compute. intros H. discriminate H.
Qed.

(** ** The fetchers *)

(** What each fetcher returns and logs, by the answer it gets. *)

Section Fetchers.

Variable network : string -> net_result.
Variable API_KEY : string.

Lemma fetch_stock_data_failure (ticker date : string) (adjusted : bool) (st : state) :
  is_fetch_failure (network (stock_url API_KEY ticker date adjusted)) = true ->
  fst (fetch_stock_data network API_KEY ticker date adjusted st) = Ret PNone /\
  last_level (snd (fetch_stock_data network API_KEY ticker date adjusted st)) = Some ERROR /\
  heap (snd (fetch_stock_data network API_KEY ticker date adjusted st)) = heap st.
Proof.
  intros H. unfold fetch_stock_data, try_except, bind, requests_get, raise_for_status,
    response_json, logging_info, logging_error, logging_warning, logging, ret, raise.
  cbv zeta beta.
  destruct (network _) as [|r]; cbn [is_fetch_failure] in H.
  - cbn. auto.
  - fold (error_status r). destruct (error_status r); [cbn; auto|].
    cbn [orb] in H. cbv iota beta. destruct (body r); [discriminate|]. cbn. auto.
Qed.

Lemma fetch_stock_data_no_data (ticker date : string) (adjusted : bool) (st : state) :
  is_no_trading_data (network (stock_url API_KEY ticker date adjusted)) = true ->
  fst (fetch_stock_data network API_KEY ticker date adjusted st) = Ret PNone /\
  last_level (snd (fetch_stock_data network API_KEY ticker date adjusted st)) = Some WARNING /\
  heap (snd (fetch_stock_data network API_KEY ticker date adjusted st)) = heap st.
Proof.
  intros H. unfold fetch_stock_data, try_except, bind, requests_get, raise_for_status,
    response_json, logging_info, logging_error, logging_warning, logging, ret, raise.
  cbv zeta beta.
  destruct (network _) as [|r]; cbn [is_no_trading_data] in H; [discriminate|].
  fold (error_status r). destruct (error_status r); [discriminate|].
  cbn [negb andb] in H. cbv iota beta.
  destruct (body r) as [[| | | |?|kvs]|]; try discriminate; try (cbn; auto; fail).
  cbv iota beta. destruct (dict_has "open" kvs && dict_has "close" kvs); [discriminate|].
  cbn. auto.
Qed.

Lemma fetch_stock_data_ok (ticker date : string) (adjusted : bool) (r : response)
    (kvs : list (string * json)) (h : list DataFrame) (lg : list (level * string))
    (fs : list (string * DataFrame)) :
  network (stock_url API_KEY ticker date adjusted) = NetOk r ->
  error_status r = false ->
  body r = Some (JObj kvs) ->
  dict_has "open" kvs && dict_has "close" kvs = true ->
  exists lg',
    fetch_stock_data network API_KEY ticker date adjusted (mkState h lg fs)
    = (Ret (PFrame (List.length h)), mkState (h ++ [df_of_record kvs]) lg' fs).
Proof.
  intros Hn Hs Hb Hd. eexists.
  unfold fetch_stock_data, try_except, bind, requests_get, raise_for_status,
    response_json, logging_info, logging_error, logging_warning, logging, ret, raise, new_frame.
  cbv zeta beta. rewrite Hn. cbv iota beta. fold (error_status r). rewrite Hs.
  cbv iota beta. rewrite Hb. cbv iota beta. rewrite Hd. reflexivity.
Qed.

Lemma fetch_currency_name_ok (ticker : string) (r : response)
    (kvs res : list (string * json)) (v : json) (st : state) :
  network (reference_url API_KEY ticker) = NetOk r ->
  status_code r = 200%Z ->
  body r = Some (JObj kvs) ->
  dict_get "results" kvs = Some (JObj res) ->
  dict_get "currency_name" res = Some v ->
  fetch_currency_name network API_KEY ticker st
  = (Ret (PJ v),
     mkState (heap st) ((INFO, ("Currency name for ticker " ++ ticker)%string) :: log st)
       (files st)).
Proof.
  intros Hn Hs Hb Hr Hc.
  unfold fetch_currency_name, try_except, bind, requests_get, response_json, py_in,
    py_getitem, dict_has, logging_info, logging_error, logging, ret, raise.
  cbv zeta beta. rewrite Hn. cbv iota beta. rewrite Hs. cbn [Z.eqb Pos.eqb]. cbv iota beta.
  rewrite Hb. cbv iota beta. rewrite Hr. cbv iota beta. rewrite Hc. reflexivity.
Qed.

Lemma fetch_currency_name_not_found (ticker : string) (r : response) (st : state) :
  network (reference_url API_KEY ticker) = NetOk r ->
  status_code r = 200%Z ->
  has_currency_name (body r) = false ->
  fst (fetch_currency_name network API_KEY ticker st) = Ret PNone /\
  last_level (snd (fetch_currency_name network API_KEY ticker st)) = Some ERROR /\
  heap (snd (fetch_currency_name network API_KEY ticker st)) = heap st /\
  files (snd (fetch_currency_name network API_KEY ticker st)) = files st.
Proof.
  intros Hn Hs Hb.
  unfold fetch_currency_name, try_except, bind, requests_get, response_json, py_in,
    py_getitem, dict_has, any_exception, logging_info, logging_error, logging_exception,
    logging, ret, raise.
  cbv zeta beta. rewrite Hn. cbv iota beta. rewrite Hs. cbn [Z.eqb Pos.eqb]. cbv iota beta.
  unfold has_currency_name, dict_has in Hb.
  destruct (body r) as [[| | |s|l|kvs]|]; try (cbn; auto; fail).
  - cbv iota beta. destruct (is_substring "results" s); cbn; auto.
  - cbv iota beta. destruct (existsb _ l); cbn; auto.
  - cbv iota beta. destruct (dict_get "results" kvs) as [[| | |s|l|res]|];
      try (cbn; auto; fail); cbv iota beta.
    + destruct (is_substring "currency_name" s); cbn; auto.
    + destruct (existsb _ l); cbn; auto.
    + destruct (dict_get "currency_name" res); [discriminate|]. cbn; auto.
Qed.

Lemma fetch_currency_name_unreachable (ticker : string) (st : state) :
  network (reference_url API_KEY ticker) = NetFail ->
  fst (fetch_currency_name network API_KEY ticker st) = Ret PNone.
Proof.
  intros Hn. unfold fetch_currency_name, try_except, bind, requests_get.
  cbv zeta beta. rewrite Hn. reflexivity.
Qed.

Lemma fetch_currency_name_http_error (ticker : string) (r : response) (st : state) :
  network (reference_url API_KEY ticker) = NetOk r ->
  status_code r <> 200%Z ->
  fst (fetch_currency_name network API_KEY ticker st) = Ret (PStr "").
Proof.
  intros Hn Hs. apply Z.eqb_neq in Hs.
  unfold fetch_currency_name, try_except, bind, requests_get, ret.
  cbv zeta beta. rewrite Hn. cbv iota beta. rewrite Hs. reflexivity.
Qed.

Lemma extends_refl (h : list DataFrame) : extends h h.
Proof. intros l d H. exact H. Qed.

Lemma extends_app (h t : list DataFrame) : extends h (h ++ t).
Proof.
  intros l d H. rewrite nth_error_app1; [exact H | apply nth_error_lt with d; exact H].
Qed.

Lemma fetch_available_currencies_total (h : list DataFrame) (lg : list (level * string))
    (fs : list (string * DataFrame)) :
  exists v h' lg',
    fetch_available_currencies network (mkState h lg fs) = (Ret v, mkState h' lg' fs) /\
    extends h h'.
Proof.
  unfold fetch_available_currencies, try_except, bind, requests_get, response_json, py_items,
    any_exception, new_frame, logging_info, logging_error, logging_exception, logging, ret, raise.
  cbv zeta beta.
  destruct (network currencies_url) as [|r]; cbv iota beta.
  - eexists _, _, _. split; [reflexivity | apply extends_refl].
  - destruct (status_code r =? 200)%Z; cbv iota beta.
    + destruct (body r) as [[| | | | |kvs]|]; cbv iota beta; cbn [heap log files];
        eexists _, _, _; (split; [reflexivity|]);
        first [apply extends_refl | apply extends_app].
    + cbn [heap log files]. eexists _, _, _. split; [reflexivity | apply extends_app].
Qed.

Lemma fetch_latest_currency_rates_unreachable (base : string) (symbols : list string)
    (date : string) (h : list DataFrame) (lg : list (level * string))
    (fs : list (string * DataFrame)) :
  network (rates_url base symbols date) = NetFail ->
  fetch_latest_currency_rates network base symbols date (mkState h lg fs)
  = (Ret PNone,
     mkState h
       ((ERROR, ("An error occurred while fetching exchange rates for "
                   ++ base ++ " on " ++ date)%string) :: lg) fs).
Proof.
  intros Hn. unfold fetch_latest_currency_rates, try_except, bind, requests_get.
  cbv zeta beta. rewrite Hn. reflexivity.
Qed.

Lemma fetch_latest_currency_rates_http_error (base : string) (symbols : list string)
    (date : string) (r : response) (h : list DataFrame) (lg : list (level * string))
    (fs : list (string * DataFrame)) :
  network (rates_url base symbols date) = NetOk r ->
  status_code r <> 200%Z ->
  fetch_latest_currency_rates network base symbols date (mkState h lg fs)
  = (Ret (PFrame (List.length h)),
     mkState (h ++ [df_empty rate_columns]) ((ERROR, "Error fetching data") :: lg) fs).
Proof.
  intros Hn Hs. apply Z.eqb_neq in Hs.
  unfold fetch_latest_currency_rates, try_except, bind, requests_get, ret.
  cbv zeta beta. rewrite Hn. cbv iota beta. rewrite Hs. reflexivity.
Qed.

End Fetchers.




(** ** The stages inside the driver *)

Lemma create_price_types_df_total (v : pyval) (h : list DataFrame)
    (lg : list (level * string)) (fs : list (string * DataFrame)) :
  exists w h' lg',
    create_price_types_df v (mkState h lg fs) = (Ret w, mkState h' lg' fs) /\
    extends h h'.
Proof.
  assert (Hfail : frame_of AttributeError v (mkState h lg fs)
                  = (Raise AttributeError, mkState h lg fs) ->
            exists w h' lg',
              create_price_types_df v (mkState h lg fs) = (Ret w, mkState h' lg' fs) /\
              extends h h').
  { intros He. eexists _, _, _. split; [|apply extends_refl].
    unfold create_price_types_df, rename_.
    rewrite (try_caught _ _
               (logging_exception "An error occurred while transforming the DataFrame" ;;
                ret PNone) _ (mkState h lg fs) AttributeError).
    - reflexivity.
    - rewrite (bind_raise _ _ _ (mkState h lg fs) AttributeError); [reflexivity|].
      rewrite (bind_raise _ _ _ (mkState h lg fs) AttributeError); [reflexivity|].
      exact He.
    - reflexivity. }
  destruct v as [j|l]; [apply Hfail; reflexivity|].
  destruct (nth_error h l) as [df|] eqn:E.
  - rewrite (create_price_types_df_run (mkState h lg fs) l df E). cbv zeta. cbn [heap log files].
    destruct (filter _ price_columns); [|destruct (df_melt _ _ _ _ _)];
      eexists _, _, _; (split; [reflexivity | apply extends_app]).
  - apply Hfail. unfold frame_of. cbn [heap]. now rewrite E.
Qed.

Lemma create_price_types_df_long (h : list DataFrame) (lg : list (level * string))
    (fs : list (string * DataFrame)) (l : loc) (df : DataFrame) :
  nth_error h l = Some df ->
  meltable df = true ->
  exists l' long h' lg',
    create_price_types_df (PFrame l) (mkState h lg fs) = (Ret (PFrame l'), mkState h' lg' fs) /\
    nth_error h' l' = Some long /\
    columns long = long_columns /\
    extends h h'.
Proof.
  intros Hl Hm. unfold meltable in Hm.
  apply andb_prop in Hm. destruct Hm as [Hm Hp].
  apply andb_prop in Hm. destruct Hm as [Hs Hf].
  apply negb_true_iff in Hp.
  rewrite (create_price_types_df_run (mkState h lg fs) l df Hl). cbv zeta. cbn [heap log files].
  fold (wide_fields df).
  destruct (filter _ price_columns) as [|c cs] eqn:Ef.
  - eexists _, _, _, _. split; [reflexivity|].
    split; [apply nth_error_snoc2|]. split; [reflexivity | apply extends_app].
  - unfold df_melt. fold (wide_fields df).
    rewrite forallb_app, <- Ef, forallb_mem_filter. cbn [forallb].
    rewrite Hs, Hf, Hp. cbn [andb negb].
    eexists _, _, _, _. split; [reflexivity|].
    split.
    { apply (nth_error_snoc3 h). }
    split; [reflexivity | apply extends_app].
Qed.

(** The report builder on a long table and a rate table without rows. *)
Lemma create_stock_currency_report_no_rates (h : list DataFrame)
    (lg : list (level * string)) (fs : list (string * DataFrame)) (l1 l2 : loc)
    (long : DataFrame) (cur : string) :
  nth_error h l1 = Some long ->
  columns long = long_columns ->
  nth_error h l2 = Some (df_empty rate_columns) ->
  exists h' lg',
    create_stock_currency_report (PFrame l1) (PFrame l2) cur (mkState h lg fs)
    = (Ret (PFrame (S (List.length h))), mkState h' lg' fs) /\
    nth_error h' (S (List.length h)) = Some (mkDF final_columns []).
Proof.
  intros H1 Hc H2.
  assert (Hne : l1 <> l2).
  { intros E. subst l2. rewrite H1 in H2. injection H2 as ->. discriminate Hc. }
  set (long' := df_setitem_scalar "ticker_currency" (JStr (upper cur)) long).
  set (h1 := upd l1 long' h).
  assert (H1' : nth_error h1 l1 = Some long') by (apply nth_error_upd_same with long; exact H1).
  assert (H2' : nth_error h1 l2 = Some (df_empty rate_columns))
    by (unfold h1; rewrite nth_error_upd_other; assumption).
  assert (Hlen : List.length h1 = List.length h) by apply length_upd.
  assert (Hmerged : df_merge_cross long' (df_empty rate_columns) = mkDF merged_columns []).
  { unfold df_merge_cross, long', df_setitem_scalar. cbn [columns rows df_empty map].
    rewrite Hc, flat_map_nil. reflexivity. }
  eexists _, _.
  unfold create_stock_currency_report.
  rewrite (try_ret _ _ (mkState h lg fs)
             (mkState (h1 ++ [mkDF (merged_columns ++ ["currency_price"]) [];
                              mkDF final_columns []])
                ((INFO, ("Successfully created the stock currency report for " ++ cur ++ ".")%string)
                   :: lg) fs)
             (PFrame (S (List.length h)))).
  - split; [reflexivity|]. rewrite <- Hlen. apply nth_error_snoc2.
  - rewrite (bind_run _ _ _ _ _ (setitem_scalar_run h lg fs l1 long H1 _ _)).
    fold long' h1.
    rewrite (bind_run _ _ _ _ _
               (merge_cross_run h1 lg fs l1 long' H1' l2 (df_empty rate_columns) H2')).
    rewrite Hmerged.
    pose proof (nth_error_snoc h1 (mkDF merged_columns [])) as Hmg.
    rewrite (bind_run _ _ _ (mkState (h1 ++ [mkDF merged_columns []]) lg fs) []).
    2:{ rewrite (getitem_run _ lg fs _ _ Hmg). reflexivity. }
    rewrite (bind_run _ _ _ (mkState (h1 ++ [mkDF merged_columns []]) lg fs) []).
    2:{ rewrite (getitem_run _ lg fs _ _ Hmg). reflexivity. }
    rewrite (bind_run _ _ _ (mkState (h1 ++ [mkDF merged_columns []]) lg fs) [])
      by reflexivity.
    rewrite (bind_run _ _ _ _ _ (setitem_series_run _ lg fs _ _ Hmg _ _)).
    rewrite upd_snoc.
    pose proof (nth_error_snoc h1 (df_setitem_series "currency_price" [] (mkDF merged_columns [])))
      as Hmg'.
    rewrite (bind_run _ _ _ _ _
               (select_run _ lg fs _ _ Hmg' final_columns (mkDF final_columns []) eq_refl)).
    unfold bind, logging_info, logging, ret. cbn [heap log files].
    rewrite length_app, Hlen. cbn [List.length]. rewrite Nat.add_1_r.
    rewrite <- app_assoc. reflexivity.
Qed.

(** ** The driver *)

Section Driver.

Variable network : string -> net_result.
Variables API_KEY ticker date : string.
Variable symbols : list string.
Variable kvs : list (string * json).
Variable cur : string.

Hypothesis Hstock : snapshot_of (network (stock_url API_KEY ticker date true)) = Some kvs.
Hypothesis Hcur :
  currency_of_answer (network (reference_url API_KEY ticker)) = Some (JStr cur).
Hypothesis Hcur_nonempty : cur <> "".

Lemma stock_fetched (h : list DataFrame) (lg : list (level * string))
    (fs : list (string * DataFrame)) :
  exists lg',
    fetch_stock_data network API_KEY ticker date true (mkState h lg fs)
    = (Ret (PFrame (List.length h)), mkState (h ++ [df_of_record kvs]) lg' fs).
Proof.
  unfold snapshot_of in Hstock.
  destruct (network (stock_url API_KEY ticker date true)) as [|r] eqn:Hn; [discriminate|].
  destruct (error_status r) eqn:Hs; [discriminate|].
  destruct (body r) as [[| | | | |kvs']|] eqn:Hb; try discriminate.
  destruct (dict_has "open" kvs' && dict_has "close" kvs') eqn:Hd; [|discriminate].
  injection Hstock as ->.
  apply (fetch_stock_data_ok network API_KEY ticker date true r kvs h lg fs Hn Hs Hb Hd).
Qed.

Lemma currency_fetched (st : state) :
  fetch_currency_name network API_KEY ticker st
  = (Ret (PJ (JStr cur)),
     mkState (heap st) ((INFO, ("Currency name for ticker " ++ ticker)%string) :: log st)
       (files st)).
Proof.
  unfold currency_of_answer in Hcur.
  destruct (network (reference_url API_KEY ticker)) as [|r] eqn:Hn; [discriminate|].
  destruct (status_code r =? 200)%Z eqn:Hs; [|discriminate].
  apply Z.eqb_eq in Hs.
  destruct (body r) as [[| | | | |kvs']|] eqn:Hb; try discriminate.
  destruct (dict_get "results" kvs') as [[| | | | |res]|] eqn:Hr; try discriminate.
  apply (fetch_currency_name_ok network API_KEY ticker r kvs' res (JStr cur) st Hn Hs Hb Hr Hcur).
Qed.

(** The driver up to the call of the rate fetcher: the stock data is
    fetched and reshaped, the currency resolved; what is left runs in a
    state with the same files, where the reshaper's result [long_v] is a long
    table when the snapshot could be melted. *)
Lemma main_to_rates (h : list DataFrame) (lg : list (level * string))
    (fs : list (string * DataFrame)) :
  exists long_v h' lg',
    main network API_KEY ticker date symbols (mkState h lg fs)
    = try_except
        (exchange_rates_df <- fetch_latest_currency_rates network cur symbols date ;;
         if is_None exchange_rates_df then
           logging_error "Failed to fetch exchange rates. Exiting."
         else
           logging_info "Exchange rates retrieved successfully." ;;
           df_stock_currency <- create_stock_currency_report long_v exchange_rates_df cur ;;
           logging_info "Stock currency report generated." ;;
           to_csv_ df_stock_currency output_path ;;
           logging_info ("Stock Currency Report saved to " ++ output_path) ;;
           logging_info "You can upload this CSV file to GCS, S3, or any cloud storage.")
        (fun e => if is_ValueError e then Some (logging_error "Error") else None)
        (mkState h' lg' fs) /\
    (meltable (df_of_record kvs) = true ->
     exists l long, long_v = PFrame l /\ nth_error h' l = Some long /\
                    columns long = long_columns).
Proof.
  unfold main.
  erewrite try_bind_run by reflexivity.
  destruct (stock_fetched h ((INFO, ("Fetching stock data for " ++ ticker ++ " on " ++ date)%string) :: lg) fs)
    as [lg1 H1].
  rewrite (try_bind_run _ _ _ _ _ _ H1). cbn [is_None].
  assert (Hlong : exists long_v h2 lg2,
            create_price_types_df (PFrame (List.length h)) (mkState (h ++ [df_of_record kvs]) lg1 fs)
            = (Ret long_v, mkState h2 lg2 fs) /\
            (meltable (df_of_record kvs) = true ->
             exists l long, long_v = PFrame l /\ nth_error h2 l = Some long /\
                            columns long = long_columns)).
  { destruct (meltable (df_of_record kvs)) eqn:Hm.
    - destruct (create_price_types_df_long (h ++ [df_of_record kvs]) lg1 fs (List.length h)
                  (df_of_record kvs) (nth_error_snoc h _) Hm)
        as (l & long & h2 & lg2 & Hrun & Hl & Hc & _).
      exists (PFrame l), h2, lg2. split; [exact Hrun|]. intros _. now exists l, long.
    - destruct (create_price_types_df_total (PFrame (List.length h)) (h ++ [df_of_record kvs]) lg1 fs)
        as (w & h2 & lg2 & Hrun & _).
      exists w, h2, lg2. split; [exact Hrun | discriminate]. }
  destruct Hlong as (long_v & h2 & lg2 & H2 & Hlong).
  rewrite (try_bind_run _ _ _ _ _ _ H2).
  erewrite try_bind_run by reflexivity.
  rewrite (try_bind_run _ _ _ _ _ _ (currency_fetched _)). cbn [heap log files].
  assert (Ht : forall st, truth (PJ (JStr cur)) st = (Ret true, st)).
  { intros st. unfold truth, ret.
    destruct (String.eqb cur "") eqn:E; [apply String.eqb_eq in E; contradiction | reflexivity]. }
  rewrite (try_bind_run _ _ _ _ _ _ (Ht _)). cbn [negb].
  erewrite try_bind_run by reflexivity.
  destruct (fetch_available_currencies_total network h2
              ((INFO, ("Stock is traded in: " ++ upper cur)%string)
                 :: (INFO, ("Currency name for ticker " ++ ticker)%string)
                 :: (INFO, "Stock data reshaped successfully.") :: lg2) fs)
    as (v3 & h3 & lg3 & H3 & Hext).
  rewrite (try_bind_run _ _ _ _ _ _ H3).
  destruct (warn_if_run (is_None v3) "Could not retrieve available currencies." h3 lg3 fs)
    as [lg4 H4].
  rewrite (try_bind_run _ _ _ _ _ _ H4).
  exists long_v, h3, lg4. split; [reflexivity|].
  intros Hm. destruct (Hlong Hm) as (l & long & -> & Hl & Hc).
  exists l, long. repeat split; auto.
Qed.

(** C7.  When the FX provider answers with a status other than 200, the
    rate fetcher returns a rate table without rows (not its error value), and
    the driver, given a snapshot it could reshape and a resolved currency,
    goes on to the end: it returns normally and has saved a report with the
    report's columns and no rows. *)
Theorem empty_rate_table_empty_report (r : response) (st : state) :
  meltable (df_of_record kvs) = true ->
  network (rates_url cur symbols date) = NetOk r ->
  status_code r <> 200%Z ->
  (exists l st1,
     fetch_latest_currency_rates network cur symbols date st = (Ret (PFrame l), st1) /\
     nth_error (heap st1) l = Some (df_empty rate_columns)) /\
  exists st',
    main network API_KEY ticker date symbols st = (Ret tt, st') /\
    files st' = (output_path, mkDF final_columns [])
                  :: filter (fun f => negb (String.eqb (fst f) output_path)) (files st).
Proof.
  intros Hm Hn Hs. destruct st as [h lg fs]. split.
  - eexists _, _. split.
    + apply (fetch_latest_currency_rates_http_error network cur symbols date r h lg fs Hn Hs).
    + cbn [heap]. apply nth_error_snoc.
  - destruct (main_to_rates h lg fs) as (long_v & h3 & lg3 & Hmain & Hlong).
    destruct (Hlong Hm) as (l & long & -> & Hl & Hc).
    rewrite Hmain.
    rewrite (try_bind_run _ _ _ _ _ _
               (fetch_latest_currency_rates_http_error network cur symbols date r h3 lg3 fs Hn Hs)).
    cbn [is_None].
    erewrite try_bind_run by reflexivity.
    destruct (create_stock_currency_report_no_rates (h3 ++ [df_empty rate_columns])
                ((INFO, "Exchange rates retrieved successfully.")
                   :: (ERROR, "Error fetching data") :: lg3) fs
                l (List.length h3) long cur
                (nth_error_snoc_old h3 long _ l Hl) Hc (nth_error_snoc h3 _))
      as (h4 & lg4 & Hrep & Hfinal).
    rewrite (try_bind_run _ _ _ _ _ _ Hrep).
    erewrite try_bind_run by reflexivity.
    rewrite (try_bind_run _ _ _ _ _ _ (to_csv_run h4 _ fs _ _ Hfinal output_path)).
    erewrite try_bind_run by reflexivity.
    eexists. split; [apply try_ret; reflexivity|]. reflexivity.
Qed.

(** C10.  When the call to the FX provider raises, the rate fetcher returns
    None, and the driver, with the stock data fetched and the currency
    resolved, logs the failure and returns without writing a file; an
    answer with a status other than 200 gives a rate table without rows
    instead. *)
Theorem rate_fetch_failure_is_fatal (st : state) :
  network (rates_url cur symbols date) = NetFail ->
  fst (fetch_latest_currency_rates network cur symbols date st) = Ret PNone /\
  (exists st',
     main network API_KEY ticker date symbols st = (Ret tt, st') /\
     files st' = files st /\
     hd_error (log st') = Some (ERROR, "Failed to fetch exchange rates. Exiting.")) /\
  (forall (network' : string -> net_result) (r : response) (st0 : state),
     network' (rates_url cur symbols date) = NetOk r ->
     status_code r <> 200%Z ->
     exists l st1,
       fetch_latest_currency_rates network' cur symbols date st0 = (Ret (PFrame l), st1) /\
       nth_error (heap st1) l = Some (df_empty rate_columns)).
Proof.
  intros Hn. destruct st as [h lg fs]. split; [|split].
  - rewrite (fetch_latest_currency_rates_unreachable network cur symbols date h lg fs Hn).
    reflexivity.
  - destruct (main_to_rates h lg fs) as (long_v & h3 & lg3 & Hmain & _).
    rewrite Hmain.
    rewrite (try_bind_run _ _ _ _ _ _
               (fetch_latest_currency_rates_unreachable network cur symbols date h3 lg3 fs Hn)).
    cbn [is_None].
    eexists. split; [apply try_ret; reflexivity|]. split; reflexivity.
  - intros network' r [h0 lg0 fs0] Hn' Hs. eexists _, _. split.
    + apply (fetch_latest_currency_rates_http_error network' cur symbols date r h0 lg0 fs0 Hn' Hs).
    + cbn [heap]. apply nth_error_snoc.
Qed.

End Driver.

(** The FX provider answers 503. *)
Lemma empty_rate_table_empty_report_witness :
  let network := network_ex (ok (JObj stock_body_ex)) (ok reference_body_ex) unavailable in
  (snapshot_of (network (stock_url "KEY" "AAPL" "2024-10-03" true)) = Some stock_body_ex /\
   currency_of_answer (network (reference_url "KEY" "AAPL")) = Some (JStr "usd") /\
   "usd" <> "" /\
   meltable (df_of_record stock_body_ex) = true /\
   network (rates_url "usd" ["EUR"] "2024-10-03") = unavailable /\
   status_code (mkResponse 503 "Service Unavailable" None) <> 200%Z) /\
  (exists l st1,
     fetch_latest_currency_rates network "usd" ["EUR"] "2024-10-03" init_state
     = (Ret (PFrame l), st1) /\
     nth_error (heap st1) l = Some (df_empty rate_columns)) /\
  exists st',
    main network "KEY" "AAPL" "2024-10-03" ["EUR"] init_state = (Ret tt, st') /\
    files st' = (output_path, mkDF final_columns [])
                  :: filter (fun f => negb (String.eqb (fst f) output_path)) (files init_state).
Proof.
  cbv zeta. split.
  - repeat split; try reflexivity; discriminate.
  - apply (empty_rate_table_empty_report
             (network_ex (ok (JObj stock_body_ex)) (ok reference_body_ex) unavailable)
             "KEY" "AAPL" "2024-10-03" ["EUR"] stock_body_ex "usd")
      with (r := mkResponse 503 "Service Unavailable" None);
      try reflexivity; discriminate.
Defined.

(** The FX provider cannot be reached. *)
Lemma rate_fetch_failure_is_fatal_witness :
  let network := network_ex (ok (JObj stock_body_ex)) (ok reference_body_ex) NetFail in
  (snapshot_of (network (stock_url "KEY" "AAPL" "2024-10-03" true)) = Some stock_body_ex /\
   currency_of_answer (network (reference_url "KEY" "AAPL")) = Some (JStr "usd") /\
   "usd" <> "" /\
   network (rates_url "usd" [] "2024-10-03") = NetFail) /\
  fst (fetch_latest_currency_rates network "usd" [] "2024-10-03" init_state) = Ret PNone /\
  (exists st',
     main network "KEY" "AAPL" "2024-10-03" [] init_state = (Ret tt, st') /\
     files st' = files init_state /\
     hd_error (log st') = Some (ERROR, "Failed to fetch exchange rates. Exiting.")) /\
  (forall (network' : string -> net_result) (r : response) (st0 : state),
     network' (rates_url "usd" [] "2024-10-03") = NetOk r ->
     status_code r <> 200%Z ->
     exists l st1,
       fetch_latest_currency_rates network' "usd" [] "2024-10-03" st0 = (Ret (PFrame l), st1) /\
       nth_error (heap st1) l = Some (df_empty rate_columns)).
Proof.
  cbv zeta. split.
  - repeat split; try reflexivity; discriminate.
  - apply (rate_fetch_failure_is_fatal
             (network_ex (ok (JObj stock_body_ex)) (ok reference_body_ex) NetFail)
             "KEY" "AAPL" "2024-10-03" [] stock_body_ex "usd");
      try reflexivity; discriminate.
Defined.

(** C6, what the code does.  On a 200 answer without results.currency_name
    the currency resolver raises nothing: the ValueError it raises is caught
    by its own handler and it returns None, logging at level ERROR.  None is
    also what it returns when the provider cannot be reached; an answer with
    another status gives the empty string.  The driver, with the stock data
    fetched, then logs that it could not fetch the currency and returns
    without writing a file. *)
Theorem currency_not_found_returns_None (network : string -> net_result)
    (API_KEY ticker date : string) (symbols : list string) (kvs : list (string * json))
    (r : response) (st : state) :
  snapshot_of (network (stock_url API_KEY ticker date true)) = Some kvs ->
  network (reference_url API_KEY ticker) = NetOk r ->
  status_code r = 200%Z ->
  has_currency_name (body r) = false ->
  (fst (fetch_currency_name network API_KEY ticker st) = Ret PNone /\
   fst (fetch_currency_name network API_KEY ticker st) <> Raise ValueError /\
   last_level (snd (fetch_currency_name network API_KEY ticker st)) = Some ERROR) /\
  (forall (network' : string -> net_result),
     network' (reference_url API_KEY ticker) = NetFail ->
     fst (fetch_currency_name network' API_KEY ticker st)
     = fst (fetch_currency_name network API_KEY ticker st)) /\
  (forall (network' : string -> net_result) (r' : response),
     network' (reference_url API_KEY ticker) = NetOk r' ->
     status_code r' <> 200%Z ->
     fst (fetch_currency_name network' API_KEY ticker st) = Ret (PStr "")) /\
  exists st',
    main network API_KEY ticker date symbols st = (Ret tt, st') /\
    files st' = files st /\
    hd_error (log st')
    = Some (ERROR, ("Could not fetch currency for " ++ ticker ++ ". Exiting.")%string).
Proof.
  intros Hstock Hn Hs Hb.
  pose proof (fetch_currency_name_not_found network API_KEY ticker r) as Hnf.
  split; [|split; [|split]].
  - destruct (Hnf st Hn Hs Hb) as (A & B & _).
    rewrite A. repeat split; [discriminate | exact B].
  - intros network' Hn'. destruct (Hnf st Hn Hs Hb) as (A & _).
    rewrite A. apply fetch_currency_name_unreachable. exact Hn'.
  - intros network' r' Hn' Hs'.
    apply (fetch_currency_name_http_error network' API_KEY ticker r' st Hn' Hs').
  - destruct st as [h lg fs]. unfold main.
    erewrite try_bind_run by reflexivity.
    destruct (stock_fetched network API_KEY ticker date kvs Hstock h
                ((INFO, ("Fetching stock data for " ++ ticker ++ " on " ++ date)%string) :: lg) fs)
      as [lg1 H1].
    rewrite (try_bind_run _ _ _ _ _ _ H1). cbn [is_None].
    destruct (create_price_types_df_total (PFrame (List.length h)) (h ++ [df_of_record kvs]) lg1 fs)
      as (w & h2 & lg2 & H2 & _).
    rewrite (try_bind_run _ _ _ _ _ _ H2).
    erewrite try_bind_run by reflexivity.
    destruct (Hnf (mkState h2 ((INFO, "Stock data reshaped successfully.") :: lg2) fs) Hn Hs Hb)
      as (A & _ & _ & F).
    destruct (fetch_currency_name network API_KEY ticker
                (mkState h2 ((INFO, "Stock data reshaped successfully.") :: lg2) fs))
      as [o st2] eqn:E.
    cbn [fst snd files] in A, F. subst o.
    rewrite (try_bind_run _ _ _ _ _ _ E).
    erewrite try_bind_run by reflexivity. cbn [negb].
    eexists. split; [apply try_ret; reflexivity|].
    split; [exact F | reflexivity].
Qed.

(** The reference provider answers 200 with an empty results object. *)
Lemma currency_not_found_returns_None_witness :
  (snapshot_of (network_no_currency (stock_url "KEY" "AAPL" "2024-10-03" true))
   = Some stock_body_ex /\
   network_no_currency (reference_url "KEY" "AAPL")
   = NetOk (mkResponse 200 "" (Some (JObj [("results", JObj [])]))) /\
   status_code (mkResponse 200 "" (Some (JObj [("results", JObj [])]))) = 200%Z /\
   has_currency_name (body (mkResponse 200 "" (Some (JObj [("results", JObj [])])))) = false) /\
  fst (fetch_currency_name network_no_currency "KEY" "AAPL" init_state) = Ret PNone /\
  fst (fetch_currency_name network_no_currency "KEY" "AAPL" init_state) <> Raise ValueError /\
  last_level (snd (fetch_currency_name network_no_currency "KEY" "AAPL" init_state)) = Some ERROR.
Proof.
  split; [repeat split; reflexivity|].
  apply (currency_not_found_returns_None network_no_currency "KEY" "AAPL" "2024-10-03" []
           stock_body_ex (mkResponse 200 "" (Some (JObj [("results", JObj [])]))) init_state);
    reflexivity.
Defined.

(** C8, what the code does.  With a stock body that has open and close but
    no symbol, the reshaper returns None, the report builder returns None,
    and the [to_csv] of None raises an AttributeError that the driver does
    not catch. *)
Theorem main_raises_past_its_boundary :
  fst (create_price_types_df (PFrame 0)
         (mkState [df_of_record [("open", JNum 150%float); ("close", JNum 152%float)]] [] []))
  = Ret PNone /\
  fst (main network_no_symbol "KEY" "AAPL" "2024-10-03" [] init_state) = Raise AttributeError /\
  files (snd (main network_no_symbol "KEY" "AAPL" "2024-10-03" [] init_state)) = [].
Proof.
  repeat split; vm_compute; reflexivity.
Qed.

(** ** Effects of the stages, for every input *)

Section Respects.

Variable R : state -> state -> Prop.
Hypothesis R_refl : forall st, R st st.
Hypothesis R_trans : forall a b c, R a b -> R b c -> R a c.
Hypothesis R_log : forall st lv msg,
  R st (mkState (heap st) ((lv, msg) :: log st) (files st)).

Lemma respects_ret {A} (a : A) : respects R (ret a).
Proof. intros st. apply R_refl. Qed.

Lemma respects_raise {A} (e : exn) : respects R (@raise A e).
Proof. intros st. apply R_refl. Qed.

Lemma respects_lift {A} (r : exn + A) : respects R (lift r).
Proof. destruct r; [apply respects_raise | apply respects_ret]. Qed.

Lemma respects_logging (lv : level) (msg : string) : respects R (logging lv msg).
Proof. intros st. apply R_log. Qed.

Lemma respects_bind {A B} (m : M A) (f : A -> M B) :
  respects R m -> (forall a, respects R (f a)) -> respects R (bind m f).
Proof.
  intros Hm Hf st. unfold bind. specialize (Hm st).
  destruct (m st) as [[a|e] st1]; cbn [snd] in *; [|exact Hm].
  apply R_trans with st1; [exact Hm | apply Hf].
Qed.

Lemma respects_try {A} (m : M A) (h : exn -> option (M A)) :
  respects R m -> (forall e k, h e = Some k -> respects R k) ->
  respects R (try_except m h).
Proof.
  intros Hm Hh st. unfold try_except. specialize (Hm st).
  destruct (m st) as [[a|e] st1]; cbn [snd] in *; [exact Hm|].
  destruct (h e) as [k|] eqn:E; [|exact Hm].
  apply R_trans with st1; [exact Hm | apply (Hh e k E)].
Qed.

Lemma respects_frame_of (err : exn) (v : pyval) : respects R (frame_of err v).
Proof.
  intros st. unfold frame_of. destruct v as [j|l]; [apply R_refl|].
  destruct (nth_error (heap st) l); apply R_refl.
Qed.

End Respects.

Lemma grown_refl (st : state) : grown st st.
Proof. split; [reflexivity | exists []; now rewrite app_nil_r]. Qed.

Lemma grown_trans (a b c : state) : grown a b -> grown b c -> grown a c.
Proof.
  intros [F1 [t1 H1]] [F2 [t2 H2]]. split; [congruence|].
  exists (t1 ++ t2). rewrite H2, H1. now rewrite app_assoc.
Qed.

Lemma grown_log (st : state) (lv : level) (msg : string) :
  grown st (mkState (heap st) ((lv, msg) :: log st) (files st)).
Proof. split; [reflexivity | exists []; cbn; now rewrite app_nil_r]. Qed.

Lemma grown_new_frame (df : DataFrame) : respects grown (new_frame df).
Proof. intros st. split; [reflexivity | now exists [df]]. Qed.

Lemma same_files_refl (st : state) : same_files st st.
Proof. split; [reflexivity | apply Nat.le_refl]. Qed.

Lemma same_files_trans (a b c : state) : same_files a b -> same_files b c -> same_files a c.
Proof.
  intros [F1 H1] [F2 H2]. split; [congruence | eapply Nat.le_trans; eassumption].
Qed.

Lemma same_files_log (st : state) (lv : level) (msg : string) :
  same_files st (mkState (heap st) ((lv, msg) :: log st) (files st)).
Proof. split; [reflexivity | apply Nat.le_refl]. Qed.

Lemma grown_same_files (a b : state) : grown a b -> same_files a b.
Proof.
  intros [F [t H]]. split; [exact F|]. rewrite H, length_app. apply Nat.le_add_r.
Qed.

Lemma same_files_new_frame (df : DataFrame) : respects same_files (new_frame df).
Proof. intros st. apply grown_same_files, grown_new_frame. Qed.

Lemma same_files_store_frame (l : loc) (df : DataFrame) :
  respects same_files (store_frame l df).
Proof.
  intros st. split; [reflexivity|]. cbn [store_frame snd heap]. now rewrite length_upd.
Qed.

Lemma respects_try_any (R : state -> state -> Prop) {A} (m k : M A) :
  (forall a b c, R a b -> R b c -> R a c) ->
  respects R m -> respects R k -> respects R (try_except m (any_exception k)).
Proof.
  intros Ht Hm Hk. apply respects_try; auto.
  intros e k' E. unfold any_exception in E. injection E as <-. exact Hk.
Qed.

(** Structural proof that a computation built from the primitives respects
    [grown]: one rule per constructor of the program text. *)
Ltac grows :=
  repeat first
    [ apply (respects_ret grown grown_refl)
    | apply (respects_raise grown grown_refl)
    | apply (respects_lift grown grown_refl)
    | apply (respects_logging grown grown_log)
    | apply (respects_frame_of grown grown_refl)
    | apply grown_new_frame
    | apply (respects_try_any grown _ _ grown_trans)
    | apply (respects_bind grown grown_trans)
    | progress intros
    | match goal with
      | |- respects _ (match ?x with _ => _ end) => destruct x
      | |- respects _ (if ?b then _ else _) => destruct b
      end ].

Section FetchersGrow.

Variable network : string -> net_result.
Variable API_KEY : string.

Lemma fetch_currency_name_grows (ticker : string) :
  respects grown (fetch_currency_name network API_KEY ticker).
Proof.
  unfold fetch_currency_name, requests_get, response_json, py_in, py_getitem. grows.
Qed.

Lemma fetch_latest_currency_rates_grows (base : string) (symbols : list string) (date : string) :
  respects grown (fetch_latest_currency_rates network base symbols date).
Proof.
  unfold fetch_latest_currency_rates, requests_get, response_json, py_get, py_items. grows.
Qed.

Lemma fetch_available_currencies_grows :
  respects grown (fetch_available_currencies network).
Proof.
  unfold fetch_available_currencies, requests_get, response_json, py_items. grows.
Qed.

Lemma fetch_stock_data_grows (ticker date : string) (adjusted : bool) :
  respects grown (fetch_stock_data network API_KEY ticker date adjusted).
Proof.
  unfold fetch_stock_data, requests_get, raise_for_status, response_json. cbv zeta.
  grows.
  apply (respects_try grown grown_trans); grows.
  match goal with H : (if ?b then _ else _) = Some _ |- _ =>
    destruct b; [injection H as <-|] end; grows.
  match goal with H : (if ?b then _ else _) = Some _ |- _ =>
    destruct b; [injection H as <-|discriminate] end; grows.
Qed.

End FetchersGrow.

Lemma create_price_types_df_grows (v : pyval) : respects grown (create_price_types_df v).
Proof.
  unfold create_price_types_df, rename_, columns_, melt_. grows.
Qed.

(** ** Which exceptions leave a computation *)

Lemma returns_iff {A} (m : M A) : returns m <-> raises_only no_exception m.
Proof.
  split.
  - intros H st e He. destruct (H st) as [a Ha]. rewrite Ha in He. discriminate.
  - intros H st. destruct (fst (m st)) as [a|e] eqn:E; [now exists a|].
    specialize (H st e E). discriminate.
Qed.

Section RaisesOnly.

Variable P : exn -> bool.

Lemma ro_ret {A} (a : A) : raises_only P (ret a).
Proof. intros st e He. discriminate He. Qed.

Lemma ro_raise {A} (e : exn) : P e = true -> raises_only P (@raise A e).
Proof. intros H st e' He. injection He as <-. exact H. Qed.

Lemma ro_logging (lv : level) (msg : string) : raises_only P (logging lv msg).
Proof. intros st e He. discriminate He. Qed.

Lemma ro_new_frame (df : DataFrame) : raises_only P (new_frame df).
Proof. intros st e He. discriminate He. Qed.

Lemma ro_store_frame (l : loc) (df : DataFrame) : raises_only P (store_frame l df).
Proof. intros st e He. discriminate He. Qed.

Lemma ro_frame_of (err : exn) (v : pyval) : P err = true -> raises_only P (frame_of err v).
Proof.
  intros H st e. unfold frame_of. destruct v as [j|l]; cbn [fst].
  - intros He. injection He as <-. exact H.
  - destruct (nth_error (heap st) l); cbn [fst]; intros He; [discriminate|].
    injection He as <-. exact H.
Qed.

Lemma ro_bind {A B} (m : M A) (f : A -> M B) :
  raises_only P m -> (forall a, raises_only P (f a)) -> raises_only P (bind m f).
Proof.
  intros Hm Hf st e. unfold bind. specialize (Hm st).
  destruct (m st) as [[a|e'] st1]; cbn [fst] in *.
  - apply Hf.
  - intros He. injection He as <-. apply Hm. reflexivity.
Qed.

(** A [try] whose body raises only classes [Q], each of them either handled by
    a clause that raises only [P], or in [P] itself. *)
Lemma ro_try (Q : exn -> bool) {A} (m : M A) (h : exn -> option (M A)) :
  raises_only Q m ->
  (forall e, Q e = true ->
     match h e with Some k => raises_only P k | None => P e = true end) ->
  raises_only P (try_except m h).
Proof.
  intros Hm Hh st e. unfold try_except. specialize (Hm st).
  destruct (m st) as [[a|e'] st1]; cbn [fst] in *; [discriminate|].
  specialize (Hh e' (Hm e' eq_refl)).
  destruct (h e') as [k|].
  - apply Hh.
  - cbn [fst]. intros He. injection He as <-. exact Hh.
Qed.

Lemma ro_try_any {A} (m k : M A) :
  raises_only P k -> raises_only P (try_except m (any_exception k)).
Proof.
  intros Hk st e. unfold try_except, any_exception.
  destruct (m st) as [[a|e'] st1]; cbn [fst]; [discriminate | apply Hk].
Qed.

End RaisesOnly.

(** Structural proof of [raises_only]. *)
Ltac raising :=
  repeat first
    [ apply ro_ret
    | apply ro_logging
    | apply ro_new_frame
    | apply ro_store_frame
    | apply ro_raise; reflexivity
    | apply ro_frame_of; reflexivity
    | apply ro_try_any
    | apply ro_bind
    | progress intros
    | match goal with
      | |- raises_only _ (lift ?r) => destruct r; unfold lift
      | |- raises_only _ (match ?x with _ => _ end) => destruct x
      | |- raises_only _ (if ?b then _ else _) => destruct b
      end ].

(** The stages whose body is closed by [except Exception] return for every
    argument: the handler logs and returns None. *)
Lemma create_price_types_df_returns (v : pyval) : returns (create_price_types_df v).
Proof. apply returns_iff. unfold create_price_types_df. raising. Qed.


Section FetchersReturn.

Variable network : string -> net_result.
Variable API_KEY : string.

Lemma fetch_currency_name_returns (ticker : string) :
  returns (fetch_currency_name network API_KEY ticker).
Proof. apply returns_iff. unfold fetch_currency_name. cbv zeta. raising. Qed.

Lemma fetch_latest_currency_rates_returns (base : string) (symbols : list string)
    (date : string) :
  returns (fetch_latest_currency_rates network base symbols date).
Proof. apply returns_iff. unfold fetch_latest_currency_rates. cbv zeta. raising. Qed.

Lemma fetch_available_currencies_returns : returns (fetch_available_currencies network).
Proof. apply returns_iff. unfold fetch_available_currencies. raising. Qed.

(** The price fetcher catches two classes only; its body raises no other. *)
Lemma fetch_stock_data_returns (ticker date : string) (adjusted : bool) :
  returns (fetch_stock_data network API_KEY ticker date adjusted).
Proof.
  apply returns_iff. unfold fetch_stock_data. cbv zeta.
  apply ro_bind; [apply ro_logging | intros _].
  apply ro_bind; [|raising].
  apply (ro_try no_exception is_RequestException).
  - unfold requests_get, raise_for_status, response_json. raising.
  - intros e He. rewrite He. raising.
Qed.

End FetchersReturn.

(** Structural proof that a computation respects [same_files]. *)
Ltac keeping :=
  repeat first
    [ apply (respects_ret same_files same_files_refl)
    | apply (respects_raise same_files same_files_refl)
    | apply (respects_lift same_files same_files_refl)
    | apply (respects_logging same_files same_files_log)
    | apply (respects_frame_of same_files same_files_refl)
    | apply same_files_new_frame
    | apply same_files_store_frame
    | apply (respects_try_any same_files _ _ same_files_trans)
    | apply (respects_bind same_files same_files_trans)
    | progress intros
    | match goal with
      | |- respects _ (match ?x with _ => _ end) => destruct x
      | |- respects _ (if ?b then _ else _) => destruct b
      end ].

Lemma create_stock_currency_report_keeps_files (v w : pyval) (cur : string) :
  respects same_files (create_stock_currency_report v w cur).
Proof.
  unfold create_stock_currency_report, setitem_scalar_, setitem_series_, merge_cross_,
    getitem_, select_.
  keeping.
Qed.

Lemma respects_grown_same_files {A} (m : M A) : respects grown m -> respects same_files m.
Proof. intros H st. apply grown_same_files, H. Qed.

(** ** What the report builder returns, for every argument *)

Lemma bind_Ret_inv {A B} (m : M A) (f : A -> M B) (st st' : state) (b : B) :
  bind m f st = (Ret b, st') ->
  exists a st1, m st = (Ret a, st1) /\ f a st1 = (Ret b, st').
Proof.
  unfold bind. destruct (m st) as [[a|e] st1]; intros H; [|discriminate].
  now exists a, st1.
Qed.

Lemma select_Ret_inv (v : pyval) (cs : list string) (st st' : state) (a : pyval) :
  select_ v cs st = (Ret a, st') ->
  exists d, a = PFrame (List.length (heap st)) /\ columns d = cs /\
            st' = mkState (heap st ++ [d]) (log st) (files st).
Proof.
  unfold select_. intros H.
  apply bind_Ret_inv in H. destruct H as (ld & st1 & H1 & H).
  apply bind_Ret_inv in H. destruct H as (d & st2 & H2 & H).
  assert (st1 = st).
  { unfold frame_of in H1. destruct v as [j|l]; [discriminate|].
    destruct (nth_error (heap st) l); [|discriminate]. now injection H1. }
  subst st1.
  unfold df_select in H2.
  destruct (forallb _ cs); cbn [lift] in H2; [|discriminate].
  injection H2 as <- <-. unfold new_frame in H. injection H as <- <-.
  refine (ex_intro _ _ (conj eq_refl (conj _ eq_refl))). reflexivity.
Qed.

Lemma create_stock_currency_report_result (v w : pyval) (cur : string) (st : state) :
  let res := create_stock_currency_report v w cur st in
  fst res = Ret PNone \/
  exists l d, fst res = Ret (PFrame l) /\ nth_error (heap (snd res)) l = Some d /\
              columns d = final_columns.
Proof.
  cbv zeta. unfold create_stock_currency_report, try_except.
  match goal with |- context [match ?body st with _ => _ end] =>
    destruct (body st) as [[a|e] st1] eqn:E end.
  2:{ left. reflexivity. }
  right. cbn [fst snd].
  do 6 (apply bind_Ret_inv in E; destruct E as (? & ? & _ & E)).
  apply bind_Ret_inv in E. destruct E as (fin & st2 & Hsel & E).
  apply select_Ret_inv in Hsel. destruct Hsel as (d & -> & Hc & ->).
  unfold bind, logging_info, logging, ret in E. cbn in E. injection E as <- <-.
  eexists _, d. cbn [heap]. split; [reflexivity|]. split; [apply nth_error_snoc | exact Hc].
Qed.

(** ** Every run of the driver *)

Lemma stage_run {A} (m : M A) :
  returns m -> respects same_files m ->
  forall st, exists a st', m st = (Ret a, st') /\ files st' = files st.
Proof.
  intros Hr Hk st. destruct (Hr st) as [a Ha]. destruct (Hk st) as [F _].
  exists a, (snd (m st)). split; [|exact F].
  rewrite <- Ha. apply surjective_pairing.
Qed.

(** Run the stage that the body of the [try] starts with. *)
Tactic Notation "stage" constr(Hret) constr(Hkeep)
    "as" ident(a) ident(s') ident(E) ident(F) :=
  match goal with
  | |- context [try_except (bind ?m ?f) ?h ?s] =>
      destruct (stage_run m Hret Hkeep s) as (a & s' & E & F);
      rewrite (try_bind_run m f h s s' a E); cbn [files] in F
  end.

Ltac log_step := erewrite try_bind_run by reflexivity.

(** X19.  Every run of [main], for every network and every input, ends in
    one of three ways: the report is saved at the output path and the last
    record is the upload hint; or the run is aborted with an error record
    and the files are as they were; or an AttributeError leaves the driver
    and the files are as they were. *)
Theorem main_outcomes (network : string -> net_result) (API_KEY ticker date : string)
    (symbols : list string) (st : state) :
  main_outcome (files st) (main network API_KEY ticker date symbols st).
Proof.
  unfold main. log_step.
  stage (fetch_stock_data_returns network API_KEY ticker date true)
        (respects_grown_same_files _ (fetch_stock_data_grows network API_KEY ticker date true))
    as stock_df s1 E1 F1.
  destruct (is_None stock_df).
  { unfold main_outcome, try_except, logging_error, logging. cbn.
    right. split; [exact F1 | reflexivity]. }
  stage (create_price_types_df_returns stock_df)
        (respects_grown_same_files _ (create_price_types_df_grows stock_df))
    as long_v s2 E2 F2.
  log_step.
  stage (fetch_currency_name_returns network API_KEY ticker)
        (respects_grown_same_files _ (fetch_currency_name_grows network API_KEY ticker))
    as stock_currency s3 E3 F3.
  assert (Habort : forall msg,
            main_outcome (files st)
              (try_except (logging_error msg)
                 (fun e => if is_ValueError e then Some (logging_error "Error") else None) s3)).
  { intros msg. unfold main_outcome, try_except, logging_error, logging. cbn.
    right. split; [cbn [files]; congruence | reflexivity]. }
  assert (Hattr : main_outcome (files st)
            (try_except (raise AttributeError)
               (fun e => if is_ValueError e then Some (logging_error "Error") else None) s3)).
  { unfold main_outcome, try_except, raise. cbn. split; [reflexivity | cbn [files]; congruence]. }
  destruct stock_currency as [j|l].
  2:{ unfold main_outcome, try_except, bind, truth, raise, logging_error, logging. cbn.
      right. split; [cbn [files]; congruence | reflexivity]. }
  destruct j as [|b|x|cur|js|kvs]; cbn [truth];
    try (erewrite try_bind_run by reflexivity;
         match goal with |- context [negb ?b] => destruct b; cbn [negb] end;
         first [apply Habort | apply Hattr]).
  log_step. destruct (negb (cur =? "")%string); cbn [negb]; [|apply Habort].
  clear Habort Hattr.
  log_step.
  stage (fetch_available_currencies_returns network)
        (respects_grown_same_files _ (fetch_available_currencies_grows network))
    as available_currencies s4 E4 F4.
  match goal with |- context [try_except (bind ?m ?f) ?h ?s] =>
    assert (Hw : exists s', m s = (Ret tt, s') /\ files s' = files s)
      by (destruct (is_None available_currencies); eexists; split; reflexivity);
    destruct Hw as (s5 & E5 & F5); rewrite (try_bind_run m f h s s5 tt E5)
  end.
  stage (fetch_latest_currency_rates_returns network cur symbols date)
        (respects_grown_same_files _
           (fetch_latest_currency_rates_grows network cur symbols date))
    as exchange_rates_df s6 E6 F6.
  destruct (is_None exchange_rates_df).
  { unfold main_outcome, try_except, logging_error, logging. cbn.
    right. split; [cbn [files]; congruence | reflexivity]. }
  log_step.
  match goal with |- context [try_except (bind ?m ?f) ?h ?s] =>
    pose proof (create_stock_currency_report_result long_v exchange_rates_df cur s) as Hres;
    pose proof (create_stock_currency_report_keeps_files long_v exchange_rates_df cur s)
      as [Fk _];
    destruct (m s) as [o s7] eqn:E7
  end.
  cbv zeta in Hres. cbn [fst snd files] in Hres, Fk.
  destruct Hres as [-> | (l & d & -> & Hd & Hc)];
    rewrite (try_bind_run _ _ _ _ _ _ E7); log_step.
  + unfold main_outcome, try_except, bind, to_csv_, frame_of, PNone. cbn.
    split; [reflexivity | cbn [files]; congruence].
  + rewrite (try_bind_run _ _ _ _ _ _
               (to_csv_run (heap s7) _ (files s7) l d Hd output_path)).
    log_step. unfold main_outcome, try_except, logging_info, logging. cbn.
    left. exists d. split; [exact Hc|]. split; [|reflexivity].
    cbn [files]. do 2 f_equal. congruence.
Qed.

(** ** The reshaper, for every frame *)

Lemma melt_wide (df : DataFrame) (c : string) (cs : list string) :
  meltable df = true ->
  present_prices df = c :: cs ->
  df_melt ["symbol"; "from"] (c :: cs) "price_type" "price" (df_rename wide_renames df)
  = inr (mkDF ["symbol"; "from"; "price_type"; "price"] (rows (long_of df))).
Proof.
  intros Hm Hc. unfold meltable in Hm.
  apply andb_prop in Hm. destruct Hm as [Hm Hp].
  apply andb_prop in Hm. destruct Hm as [Hs Hf].
  apply negb_true_iff in Hp.
  unfold df_melt. fold (wide_fields df).
  rewrite forallb_app, <- Hc. unfold present_prices at 1. rewrite forallb_mem_filter.
  cbn [forallb]. rewrite Hs, Hf, Hp. cbn [andb negb].
  unfold long_of, long_row. cbn [rows df_rename map app]. reflexivity.
Qed.

Lemma melt_not_meltable (df : DataFrame) (cs : list string) :
  meltable df = false ->
  exists e, df_melt ["symbol"; "from"] cs "price_type" "price" (df_rename wide_renames df)
            = inl e.
Proof.
  intros Hm. unfold meltable in Hm. unfold df_melt. fold (wide_fields df).
  rewrite forallb_app. cbn [forallb].
  destruct (mem "symbol" (wide_fields df)); [|eexists; reflexivity].
  destruct (mem "from" (wide_fields df)); [|eexists; reflexivity].
  cbn [andb] in *. apply negb_false_iff in Hm. rewrite Hm.
  destruct (forallb _ cs); eexists; reflexivity.
Qed.

(** X7.  [create_price_types_df] on any frame of any number of rows
    whose labels are distinct after the renaming, with the two identifier
    columns and no column price: the long table has one block per price
    column that is there, in the order open, high, low, close, after_hours,
    pre_market, and each block holds the rows of the frame in their order;
    so it has (price columns) x (rows) rows. *)
Theorem create_price_types_df_blocks (st : state) (l : loc) (df : DataFrame) :
  nth_error (heap st) l = Some df ->
  distinct (wide_fields df) = true ->
  meltable df = true ->
  exists l' st',
    create_price_types_df (PFrame l) st = (Ret (PFrame l'), st') /\
    nth_error (heap st') l' = Some (long_of df) /\
    List.length (rows (long_of df))
    = List.length (present_prices df) * List.length (rows df).
Proof.
  intros Hl _ Hm.
  rewrite (create_price_types_df_run st l df Hl). cbv zeta.
  fold (wide_fields df). fold (present_prices df).
  assert (Hlen : List.length (rows (long_of df))
                 = List.length (present_prices df) * List.length (rows df)).
  { unfold long_of. cbn [rows].
    induction (present_prices df) as [|c cs IH]; simpl; [reflexivity|].
    now rewrite length_app, length_map, IH. }
  destruct (present_prices df) as [|c cs] eqn:Ef.
  - eexists _, _. split; [reflexivity|]. split; [|exact Hlen].
    cbn [heap]. unfold long_of. rewrite Ef. apply nth_error_snoc2.
  - rewrite (melt_wide df c cs Hm Ef).
    eexists _, _. split; [reflexivity|]. split; [|exact Hlen].
    cbn [heap]. apply (nth_error_snoc3 (heap st)).
Qed.

(** X8.  Without any price column [create_price_types_df] returns an
    empty long table and logs a warning, whatever else the frame holds,
    the identifier columns included. *)
Theorem create_price_types_df_no_prices (st : state) (l : loc) (df : DataFrame) :
  nth_error (heap st) l = Some df ->
  present_prices df = [] ->
  exists l' st',
    create_price_types_df (PFrame l) st = (Ret (PFrame l'), st') /\
    nth_error (heap st') l' = Some (mkDF long_columns []) /\
    last_level st' = Some WARNING /\
    files st' = files st.
Proof.
  intros Hl He.
  rewrite (create_price_types_df_run st l df Hl). cbv zeta.
  fold (wide_fields df). fold (present_prices df). rewrite He.
  eexists _, _. split; [reflexivity|]. cbn [heap].
  split; [apply nth_error_snoc2 | split; reflexivity].
Qed.

(** X9.  [create_price_types_df] returns None on a frame with distinct
    labels exactly when the frame has a price column and cannot be melted
    (an identifier column is missing, or there is a column price already);
    the last record is then an error.  On a value that is no frame it
    returns None too. *)
Theorem create_price_types_df_none_iff (st : state) (l : loc) (df : DataFrame) :
  nth_error (heap st) l = Some df ->
  distinct (wide_fields df) = true ->
  (fst (create_price_types_df (PFrame l) st) = Ret PNone <->
   present_prices df <> [] /\ meltable df = false) /\
  (fst (create_price_types_df (PFrame l) st) = Ret PNone ->
   last_level (snd (create_price_types_df (PFrame l) st)) = Some ERROR) /\
  (forall j st0, fst (create_price_types_df (PJ j) st0) = Ret PNone).
Proof.
  intros Hl _.
  rewrite (create_price_types_df_run st l df Hl). cbv zeta.
  fold (wide_fields df). fold (present_prices df).
  split; [|split].
  - destruct (present_prices df) as [|c cs] eqn:Ef.
    + cbn [fst]. split; [discriminate | intros [H _]; now contradiction H].
    + destruct (meltable df) eqn:Hm.
      * rewrite (melt_wide df c cs Hm Ef). cbn [fst].
        split; [discriminate | intros [_ H]; discriminate].
      * destruct (melt_not_meltable df (c :: cs) Hm) as [e He]. rewrite He. cbn [fst].
        split; [intros _; split; [discriminate | reflexivity] | reflexivity].
  - destruct (present_prices df) as [|c cs]; [discriminate|].
    destruct (df_melt _ _ _ _ _); [reflexivity | discriminate].
  - intros j st0. reflexivity.
Qed.

(** ** The report builder: contents, and failures *)



Lemma series_mul_fails (f g : list json -> json) (rs : list (list json)) (r : list json) :
  In r rs -> cell_mul (f r) (g r) = inl TypeError ->
  series_mul (map f rs) (map g rs) = inl TypeError.
Proof.
  assert (Hty : forall a b e, cell_mul a b = inl e -> e = TypeError).
  { intros a b e. unfold cell_mul. destruct (is_na a || is_na b); [discriminate|].
    destruct (as_number a); [destruct (as_number b)|]; congruence. }
  induction rs as [|r0 rs IH]; intros Hin Hf; [contradiction|].
  cbn [map series_mul].
  destruct (cell_mul (f r0) (g r0)) as [e|v] eqn:E0.
  - now rewrite (Hty _ _ _ E0).
  - destruct Hin as [->|Hin]; [congruence|].
    now rewrite (IH Hin Hf).
Qed.

(** X13.  One price that is neither a number nor null, against one rate
    that is there and has a fractional part (pandas then holds the rates as
    binary64, as they are held here), and [create_stock_currency_report]
    returns None for the whole report and logs an error. *)
Theorem report_with_non_numeric_price (st : state) (l1 l2 : loc) (long rates : DataFrame)
    (cur : string) (a b c p x e : json) :
  nth_error (heap st) l1 = Some long ->
  nth_error (heap st) l2 = Some rates ->
  columns long = long_columns ->
  columns rates = rate_columns ->
  In [a; b; c; p] (rows long) ->
  numeric_or_null p = false ->
  In [x; e] (rows rates) ->
  fractional e = true ->
  is_na e = false ->
  fst (create_stock_currency_report (PFrame l1) (PFrame l2) cur st) = Ret PNone /\
  last_level (snd (create_stock_currency_report (PFrame l1) (PFrame l2) cur st)) = Some ERROR.
Proof.
  intros H1 H2 Hlc Hrc Hp Hnum He _ Hna.
  destruct st as [h lg fs]. cbn [heap log files] in *.
  assert (Hne : l1 <> l2).
  { intros E. subst l2. rewrite H1 in H2. injection H2 as ->. rewrite Hlc in Hrc. discriminate. }
  set (long' := df_setitem_scalar "ticker_currency" (JStr (upper cur)) long).
  set (h1 := upd l1 long' h).
  set (merged := df_merge_cross long' rates).
  assert (H1' : nth_error h1 l1 = Some long') by (apply nth_error_upd_same with long; exact H1).
  assert (H2' : nth_error h1 l2 = Some rates)
    by (unfold h1; rewrite nth_error_upd_other; assumption).
  assert (Hcols : columns merged = merged_columns).
  { unfold merged, df_merge_cross, long', df_setitem_scalar. cbn [columns].
    rewrite Hlc, Hrc. reflexivity. }
  assert (Hrow : In ([a; b; c; p; JStr (upper cur); x; e]) (rows merged)).
  { unfold merged, df_merge_cross, long', df_setitem_scalar. cbn [rows columns].
    rewrite Hlc. change (index_of "ticker_currency" long_columns) with (@None nat).
    cbn [set_cell]. apply in_flat_map. exists ([a; b; c; p] ++ [JStr (upper cur)]). split.
    - apply in_map_iff. now exists [a; b; c; p].
    - apply in_map_iff. now exists [x; e]. }
  assert (Hmul : series_mul (map (cell_at 3) (rows merged)) (map (cell_at 6) (rows merged))
                 = inl TypeError).
  { apply series_mul_fails with [a; b; c; p; JStr (upper cur); x; e]; [exact Hrow|].
    cbn [cell_at nth]. unfold numeric_or_null in Hnum. unfold cell_mul.
    apply orb_false_iff in Hnum. destruct Hnum as [Hp1 Hp2].
    rewrite Hp1, Hna. cbn [orb]. destruct (as_number p); [discriminate | reflexivity]. }
  assert (Hrun : create_stock_currency_report (PFrame l1) (PFrame l2) cur (mkState h lg fs)
                 = (Ret PNone,
                    mkState (h1 ++ [merged])
                      ((ERROR, "An error occurred while creating the stock currency report") :: lg)
                      fs)).
  { unfold create_stock_currency_report.
    rewrite (try_caught _ _
               (logging_exception "An error occurred while creating the stock currency report" ;;
                ret PNone) _ (mkState (h1 ++ [merged]) lg fs) TypeError);
      [reflexivity| |reflexivity].
    rewrite (bind_run _ _ _ _ _ (setitem_scalar_run h lg fs l1 long H1 _ _)).
    fold long' h1.
    rewrite (bind_run _ _ _ _ _ (merge_cross_run h1 lg fs l1 long' H1' l2 rates H2')).
    fold merged.
    pose proof (nth_error_snoc h1 merged) as Hmg.
    rewrite (bind_run _ _ _ (mkState (h1 ++ [merged]) lg fs) (map (cell_at 3) (rows merged))).
    2:{ rewrite (getitem_run _ lg fs _ _ Hmg). unfold df_getitem. rewrite Hcols. reflexivity. }
    rewrite (bind_run _ _ _ (mkState (h1 ++ [merged]) lg fs) (map (cell_at 6) (rows merged))).
    2:{ rewrite (getitem_run _ lg fs _ _ Hmg). unfold df_getitem. rewrite Hcols. reflexivity. }
    rewrite Hmul. reflexivity. }
  rewrite Hrun. split; reflexivity.
Qed.

(** ** The fetchers, for every answer *)

Lemma only_logged_refl (st : state) : only_logged st st.
Proof. split; reflexivity. Qed.

Lemma only_logged_trans (a b c : state) :
  only_logged a b -> only_logged b c -> only_logged a c.
Proof. intros [H1 F1] [H2 F2]. split; congruence. Qed.

Lemma only_logged_log (st : state) (lv : level) (msg : string) :
  only_logged st (mkState (heap st) ((lv, msg) :: log st) (files st)).
Proof. split; reflexivity. Qed.

Ltac logs_only :=
  repeat first
    [ apply (respects_ret only_logged only_logged_refl)
    | apply (respects_raise only_logged only_logged_refl)
    | apply (respects_logging only_logged only_logged_log)
    | apply (respects_try_any only_logged _ _ only_logged_trans)
    | apply (respects_bind only_logged only_logged_trans)
    | progress intros
    | match goal with
      | |- respects _ (match ?x with _ => _ end) => destruct x
      | |- respects _ (if ?b then _ else _) => destruct b
      end ].

Lemma snapshot_of_none (n : net_result) :
  snapshot_of n = None -> is_fetch_failure n = true \/ is_no_trading_data n = true.
Proof.
  unfold snapshot_of, is_fetch_failure, is_no_trading_data.
  destruct n as [|r]; [now left|].
  destruct (error_status r); [now left|]. cbn [orb negb andb].
  destruct (body r) as [[| | | | |kvs]|]; auto.
  destruct (dict_has "open" kvs && dict_has "close" kvs); [discriminate | auto].
Qed.

(** X1.  [fetch_stock_data], by the provider's answer.  When the answer
    has no error status and its body is a JSON object with the keys open
    and close, the fetcher returns a new frame of one row, with the body's
    keys as columns in the body's order; for every other answer, and for no
    answer, it returns None and makes no frame.
    The files are never touched. *)
Theorem fetch_stock_data_result (network : string -> net_result)
    (API_KEY ticker date : string) (adjusted : bool) (st : state) :
  let res := fetch_stock_data network API_KEY ticker date adjusted st in
  match snapshot_of (network (stock_url API_KEY ticker date adjusted)) with
  | Some kvs =>
      fst res = Ret (PFrame (List.length (heap st))) /\
      heap (snd res) = heap st ++ [mkDF (map fst kvs) [map snd kvs]]
  | None => fst res = Ret PNone /\ heap (snd res) = heap st
  end /\
  files (snd res) = files st.
Proof.
  cbv zeta. split; [|apply (fetch_stock_data_grows network API_KEY ticker date adjusted st)].
  destruct (snapshot_of _) as [kvs|] eqn:Hs.
  - destruct st as [h lg fs]. unfold snapshot_of in Hs.
    destruct (network (stock_url API_KEY ticker date adjusted)) as [|r] eqn:Hn; [discriminate|].
    destruct (error_status r) eqn:He; [discriminate|].
    destruct (body r) as [[| | | | |kvs']|] eqn:Hb; try discriminate.
    destruct (dict_has "open" kvs' && dict_has "close" kvs') eqn:Hd; [|discriminate].
    injection Hs as ->.
    destruct (fetch_stock_data_ok network API_KEY ticker date adjusted r kvs h lg fs Hn He Hb Hd)
      as [lg' H].
    rewrite H. repeat split.
  - destruct (snapshot_of_none _ Hs) as [H|H].
    + destruct (fetch_stock_data_failure network API_KEY ticker date adjusted st H)
        as (A & _ & B). now split.
    + destruct (fetch_stock_data_no_data network API_KEY ticker date adjusted st H)
        as (A & _ & B). now split.
Qed.

Lemma fetch_currency_name_logs_only (network : string -> net_result)
    (API_KEY ticker : string) :
  respects only_logged (fetch_currency_name network API_KEY ticker).
Proof.
  unfold fetch_currency_name, requests_get, response_json, py_in, py_getitem. logs_only.
Qed.

Lemma currency_of_answer_none (r : response) :
  status_code r = 200%Z ->
  currency_of_answer (NetOk r) = None -> has_currency_name (body r) = false.
Proof.
  intros Hs. unfold currency_of_answer, has_currency_name, dict_has. rewrite Hs. cbn [Z.eqb Pos.eqb].
  destruct (body r) as [[| | | | |kvs]|]; auto.
  destruct (dict_get "results" kvs) as [[| | | | |res]|]; auto.
  destruct (dict_get "currency_name" res); [discriminate | auto].
Qed.

(** What the currency resolver returns, by the answer. *)
Lemma fetch_currency_name_value (network : string -> net_result)
    (API_KEY ticker : string) (st : state) :
  fst (fetch_currency_name network API_KEY ticker st)
  = Ret (currency_result (network (reference_url API_KEY ticker))).
Proof.
  unfold currency_result.
  destruct (network (reference_url API_KEY ticker)) as [|r] eqn:Hn.
  - apply fetch_currency_name_unreachable. exact Hn.
  - destruct (status_code r =? 200)%Z eqn:Hs.
    + apply Z.eqb_eq in Hs.
      destruct (currency_of_answer (NetOk r)) as [v|] eqn:Hc.
      * unfold currency_of_answer in Hc. rewrite Hs in Hc. cbn [Z.eqb Pos.eqb] in Hc.
        destruct (body r) as [[| | | | |kvs]|] eqn:Hb; try discriminate.
        destruct (dict_get "results" kvs) as [[| | | | |res]|] eqn:Hr; try discriminate.
        rewrite (fetch_currency_name_ok network API_KEY ticker r kvs res v st Hn Hs Hb Hr Hc).
        reflexivity.
      * apply (fetch_currency_name_not_found network API_KEY ticker r st Hn Hs).
        apply currency_of_answer_none; assumption.
    + apply Z.eqb_neq in Hs.
      apply (fetch_currency_name_http_error network API_KEY ticker r st Hn Hs).
Qed.

(** X2.  [fetch_currency_name], by the provider's answer: None when
    there is no answer or a 200 without a currency, the value of
    [results.currency_name] as it is (a string or not) when a 200 has one,
    and the empty string for any other status.  It makes no frame and
    writes no file. *)
Theorem fetch_currency_name_result (network : string -> net_result)
    (API_KEY ticker : string) (st : state) :
  let res := fetch_currency_name network API_KEY ticker st in
  let answer := network (reference_url API_KEY ticker) in
  fst res = Ret (currency_result answer) /\
  (forall v, currency_of_answer answer = Some v -> fst res = Ret (PJ v)) /\
  heap (snd res) = heap st /\ files (snd res) = files st.
Proof.
  cbv zeta. pose proof (fetch_currency_name_value network API_KEY ticker st) as Hv.
  split; [exact Hv|]. split.
  - intros v Hc. rewrite Hv. unfold currency_result.
    destruct (network (reference_url API_KEY ticker)) as [|r]; [discriminate|].
    rewrite Hc. unfold currency_of_answer in Hc.
    destruct (status_code r =? 200)%Z; [reflexivity | discriminate].
  - apply (fetch_currency_name_logs_only network API_KEY ticker st).
Qed.

Section RateFetcher.

Variable network : string -> net_result.
Variables base date : string.
Variable symbols : list string.

(** X3.  [fetch_latest_currency_rates] on a 200 answer whose body has a
    [rates] object: a new frame with the columns currency and
    exchange_rate and one row per entry, in the order of the body. *)
Theorem fetch_latest_currency_rates_table (r : response) (kvs rs : list (string * json))
    (st : state) :
  network (rates_url base symbols date) = NetOk r ->
  status_code r = 200%Z ->
  body r = Some (JObj kvs) ->
  dict_get "rates" kvs = Some (JObj rs) ->
  let res := fetch_latest_currency_rates network base symbols date st in
  fst res = Ret (PFrame (List.length (heap st))) /\
  heap (snd res)
  = heap st ++ [mkDF rate_columns (map (fun kv => [JStr (fst kv); snd kv]) rs)] /\
  List.length (map (fun kv => [JStr (fst kv); snd kv]) rs) = List.length rs /\
  files (snd res) = files st.
Proof.
  intros Hn Hs Hb Hr. cbv zeta.
  unfold fetch_latest_currency_rates, try_except, bind, requests_get, response_json,
    py_get, py_items, new_frame, logging_info, logging, ret.
  cbv zeta beta. rewrite Hn. cbv iota beta. rewrite Hs. cbn [Z.eqb Pos.eqb]. cbv iota beta.
  rewrite Hb. cbv iota beta. rewrite Hr. cbn. rewrite length_map. auto.
Qed.

(** X4.  [fetch_latest_currency_rates] on a 200 answer whose object has
    no [rates] entry returns the table without rows, not None, and logs
    success. *)
Theorem fetch_latest_currency_rates_no_entry (r : response) (kvs : list (string * json))
    (st : state) :
  network (rates_url base symbols date) = NetOk r ->
  status_code r = 200%Z ->
  body r = Some (JObj kvs) ->
  dict_get "rates" kvs = None ->
  let res := fetch_latest_currency_rates network base symbols date st in
  fst res = Ret (PFrame (List.length (heap st))) /\
  heap (snd res) = heap st ++ [mkDF rate_columns []] /\
  files (snd res) = files st /\
  last_level (snd res) = Some INFO.
Proof.
  intros Hn Hs Hb Hr. cbv zeta.
  unfold fetch_latest_currency_rates, try_except, bind, requests_get, response_json,
    py_get, py_items, new_frame, logging_info, logging, ret.
  cbv zeta beta. rewrite Hn. cbv iota beta. rewrite Hs. cbn [Z.eqb Pos.eqb]. cbv iota beta.
  rewrite Hb. cbv iota beta. rewrite Hr. cbn. auto.
Qed.

(** X5.  [fetch_latest_currency_rates] returns None, logs an error and
    makes no frame when there is no answer, when a 200 answer is not a JSON
    object, or when its [rates] is not an object. *)
Theorem fetch_latest_currency_rates_malformed (st : state) :
  is_rates_failure (network (rates_url base symbols date)) = true ->
  let res := fetch_latest_currency_rates network base symbols date st in
  fst res = Ret PNone /\ heap (snd res) = heap st /\ files (snd res) = files st /\
  last_level (snd res) = Some ERROR.
Proof.
  unfold is_rates_failure. intros H. cbv zeta.
  unfold fetch_latest_currency_rates, try_except, bind, requests_get, response_json,
    py_get, py_items, new_frame, logging_info, logging_error, logging_exception, logging,
    any_exception, ret, raise.
  cbv zeta beta.
  destruct (network (rates_url base symbols date)) as [|r]; [cbn; auto|]. cbv iota beta.
  destruct (status_code r =? 200)%Z; [|discriminate]. cbn [andb] in H. cbv iota beta.
  destruct (body r) as [[| | | | |kvs]|]; try (cbn; auto; fail).
  cbv iota beta. destruct (dict_get "rates" kvs) as [[| | | | |rs]|]; try (cbn; auto; fail);
    discriminate.
Qed.

End RateFetcher.

(** ** Tables of the run that goes through *)

Lemma create_price_types_df_long_of (h : list DataFrame) (lg : list (level * string))
    (fs : list (string * DataFrame)) (l : loc) (df : DataFrame) :
  nth_error h l = Some df ->
  meltable df = true ->
  exists l' h' lg',
    create_price_types_df (PFrame l) (mkState h lg fs) = (Ret (PFrame l'), mkState h' lg' fs) /\
    nth_error h' l' = Some (long_of df) /\
    extends h h'.
Proof.
  intros Hl Hm.
  rewrite (create_price_types_df_run (mkState h lg fs) l df Hl). cbv zeta. cbn [heap log files].
  fold (wide_fields df). fold (present_prices df).
  destruct (present_prices df) as [|c cs] eqn:Ef.
  - eexists _, _, _. split; [reflexivity|]. split; [|apply extends_app].
    unfold long_of. rewrite Ef. apply nth_error_snoc2.
  - rewrite (melt_wide df c cs Hm Ef).
    eexists _, _, _. split; [reflexivity|]. split; [|apply extends_app].
    apply (nth_error_snoc3 h).
Qed.




(** ** The driver, path by path *)

Lemma truth_falsy (v : pyval) (st : state) :
  falsy_value v = true -> truth v st = (Ret false, st).
Proof.
  destruct v as [j|l]; [|discriminate]. unfold falsy_value, truth, ret.
  destruct j as [|b|x|s|js|kvs]; cbn [falsy]; intros H.
  - reflexivity.
  - now destruct b.
  - now rewrite H.
  - now rewrite H.
  - now destruct js.
  - now destruct kvs.
Qed.

Lemma truth_truthy (j : json) (st : state) :
  falsy j = false -> truth (PJ j) st = (Ret true, st).
Proof.
  unfold truth, ret. destruct j as [|b|x|s|js|kvs]; cbn [falsy]; intros H.
  - discriminate.
  - now destruct b.
  - now rewrite H.
  - now rewrite H.
  - now destruct js.
  - now destruct kvs.
Qed.

(** X16.  Without a snapshot [main] logs that the stock data could not
    be fetched and returns; no frame is made and no file is written. *)
Theorem main_without_stock_data (network : string -> net_result)
    (API_KEY ticker date : string) (symbols : list string) (st : state) :
  snapshot_of (network (stock_url API_KEY ticker date true)) = None ->
  exists st',
    main network API_KEY ticker date symbols st = (Ret tt, st') /\
    heap st' = heap st /\ files st' = files st /\
    hd_error (log st')
    = Some (ERROR, ("Failed to fetch stock data for " ++ ticker ++ ". Exiting.")%string).
Proof.
  intros Hs. unfold main. log_step.
  match goal with |- context [try_except (bind ?m ?f) ?h ?s] =>
    assert (Hf : fst (m s) = Ret PNone /\ heap (snd (m s)) = heap s /\
                 files (snd (m s)) = files s);
    [ destruct (snapshot_of_none _ Hs) as [H|H];
      [ destruct (fetch_stock_data_failure network API_KEY ticker date true s H) as (A & _ & B)
      | destruct (fetch_stock_data_no_data network API_KEY ticker date true s H) as (A & _ & B) ];
      (split; [exact A|]; split; [exact B|];
       apply (fetch_stock_data_grows network API_KEY ticker date true))
    | destruct (m s) as [o s1] eqn:E; cbn [fst snd heap files] in Hf;
      destruct Hf as (-> & Hh & Hfs); rewrite (try_bind_run m f h s s1 PNone E) ]
  end.
  cbn [is_None PNone].
  eexists. split; [apply try_ret; reflexivity|]. cbn [heap files log].
  repeat split; assumption.
Qed.

Section DriverCurrency.

Variable network : string -> net_result.
Variables API_KEY ticker date : string.
Variable symbols : list string.
Variable kvs : list (string * json).

Hypothesis Hstock : snapshot_of (network (stock_url API_KEY ticker date true)) = Some kvs.

(** The driver up to the truth test of the currency. *)
Lemma main_to_currency (h : list DataFrame) (lg : list (level * string))
    (fs : list (string * DataFrame)) :
  exists long_v s,
    files s = fs /\
    (meltable (df_of_record kvs) = true ->
     exists l, long_v = PFrame l /\ nth_error (heap s) l = Some (long_of (df_of_record kvs))) /\
    main network API_KEY ticker date symbols (mkState h lg fs)
    = try_except
        (t <- truth (currency_result (network (reference_url API_KEY ticker))) ;;
         if negb t then
           logging_error ("Could not fetch currency for " ++ ticker ++ ". Exiting.")
         else
           match currency_result (network (reference_url API_KEY ticker)) with
           | PJ (JStr cur) =>
               logging_info ("Stock is traded in: " ++ upper cur) ;;
               available_currencies <- fetch_available_currencies network ;;
               (if is_None available_currencies
                then logging_warning "Could not retrieve available currencies."
                else ret tt) ;;
               exchange_rates_df <- fetch_latest_currency_rates network cur symbols date ;;
               if is_None exchange_rates_df then
                 logging_error "Failed to fetch exchange rates. Exiting."
               else
                 logging_info "Exchange rates retrieved successfully." ;;
                 df_stock_currency <- create_stock_currency_report long_v exchange_rates_df cur ;;
                 logging_info "Stock currency report generated." ;;
                 to_csv_ df_stock_currency output_path ;;
                 logging_info ("Stock Currency Report saved to " ++ output_path) ;;
                 logging_info "You can upload this CSV file to GCS, S3, or any cloud storage."
           | _ => raise AttributeError
           end)
        (fun e => if is_ValueError e then Some (logging_error "Error") else None) s.
Proof.
  unfold main. log_step.
  destruct (stock_fetched network API_KEY ticker date kvs Hstock h
              ((INFO, ("Fetching stock data for " ++ ticker ++ " on " ++ date)%string) :: lg) fs)
    as [lg1 H1].
  rewrite (try_bind_run _ _ _ _ _ _ H1). cbn [is_None].
  assert (Hlong : exists long_v h2 lg2,
            create_price_types_df (PFrame (List.length h)) (mkState (h ++ [df_of_record kvs]) lg1 fs)
            = (Ret long_v, mkState h2 lg2 fs) /\
            (meltable (df_of_record kvs) = true ->
             exists l, long_v = PFrame l /\ nth_error h2 l = Some (long_of (df_of_record kvs)))).
  { destruct (meltable (df_of_record kvs)) eqn:Hm.
    - destruct (create_price_types_df_long_of (h ++ [df_of_record kvs]) lg1 fs (List.length h)
                  (df_of_record kvs) (nth_error_snoc h _) Hm)
        as (l & h2 & lg2 & Hrun & Hl & _).
      exists (PFrame l), h2, lg2. split; [exact Hrun|]. intros _. now exists l.
    - destruct (create_price_types_df_total (PFrame (List.length h)) (h ++ [df_of_record kvs]) lg1 fs)
        as (w & h2 & lg2 & Hrun & _).
      exists w, h2, lg2. split; [exact Hrun | discriminate]. }
  destruct Hlong as (long_v & h2 & lg2 & H2 & Hlong).
  rewrite (try_bind_run _ _ _ _ _ _ H2). log_step.
  match goal with |- context [try_except (bind ?m ?f) ?hd ?s] =>
    pose proof (fetch_currency_name_value network API_KEY ticker s) as Hv;
    pose proof (fetch_currency_name_logs_only network API_KEY ticker s) as [Hh Hf];
    destruct (m s) as [o s3] eqn:E; cbn [fst snd files heap] in Hv, Hf, Hh; subst o;
    rewrite (try_bind_run m f hd s s3 _ E)
  end.
  exists long_v, s3. split; [exact Hf|]. split; [|reflexivity].
  intros Hm. destruct (Hlong Hm) as (l & -> & Hl). exists l. split; [reflexivity|].
  rewrite Hh. exact Hl.
Qed.

(** X17.  A currency name that is false to Python (None, the empty string
    of a failed status, zero, an empty list or object) ends the run of
    [main] with an error record and without a file. *)
Theorem main_without_currency (st : state) :
  falsy_value (currency_result (network (reference_url API_KEY ticker))) = true ->
  exists st',
    main network API_KEY ticker date symbols st = (Ret tt, st') /\
    files st' = files st /\
    hd_error (log st')
    = Some (ERROR, ("Could not fetch currency for " ++ ticker ++ ". Exiting.")%string).
Proof.
  intros Hf. destruct st as [h lg fs].
  destruct (main_to_currency h lg fs) as (long_v & s & Hs & _ & Hmain).
  rewrite Hmain. rewrite (try_bind_run _ _ _ _ _ _ (truth_falsy _ s Hf)). cbn [negb].
  eexists. split; [apply try_ret; reflexivity|]. split; [exact Hs | reflexivity].
Qed.

(** X18.  A currency name that is true to Python and no string leaves
    [main] as an AttributeError, which its handler for ValueError does not
    catch; no file is written. *)
Theorem main_with_currency_of_wrong_type (j : json) (st : state) :
  currency_of_answer (network (reference_url API_KEY ticker)) = Some j ->
  falsy j = false ->
  is_string j = false ->
  exists st',
    main network API_KEY ticker date symbols st = (Raise AttributeError, st') /\
    files st' = files st.
Proof.
  intros Hc Hf Hstr. destruct st as [h lg fs].
  destruct (main_to_currency h lg fs) as (long_v & s & Hs & _ & Hmain).
  rewrite Hmain.
  assert (Hres : currency_result (network (reference_url API_KEY ticker)) = PJ j).
  { unfold currency_result. destruct (network (reference_url API_KEY ticker)) as [|r];
      [discriminate|].
    rewrite Hc. unfold currency_of_answer in Hc.
    destruct (status_code r =? 200)%Z; [reflexivity | discriminate]. }
  rewrite Hres. rewrite (try_bind_run _ _ _ _ _ _ (truth_truthy j s Hf)). cbn [negb].
  exists s. split; [|exact Hs].
  destruct j; try discriminate; reflexivity.
Qed.


End DriverCurrency.

(** ** Labels across the rename *)

Lemma rename_wide_other (c : string) :
  c <> "afterHours" -> c <> "preMarket" -> rename_label wide_renames c = c.
Proof.
  intros H1 H2. unfold rename_label, wide_renames. cbn [find fst snd].
  apply String.eqb_neq in H1, H2. now rewrite H1, H2.
Qed.

(** A label that the rename neither reads nor writes is found where it
    was. *)
Lemma index_of_rename_other (c : string) (cs : list string) :
  c <> "afterHours" -> c <> "preMarket" -> c <> "after_hours" -> c <> "pre_market" ->
  index_of c (map (rename_label wide_renames) cs) = index_of c cs.
Proof.
  intros H1 H2 H3 H4. induction cs as [|d cs IH]; [reflexivity|].
  cbn [map index_of]. rewrite IH.
  destruct (String.eqb_spec d "afterHours") as [->|Hd1].
  { change (rename_label wide_renames "afterHours") with "after_hours".
    apply String.eqb_neq in H1, H3. now rewrite H1, H3. }
  destruct (String.eqb_spec d "preMarket") as [->|Hd2].
  { change (rename_label wide_renames "preMarket") with "pre_market".
    apply String.eqb_neq in H2, H4. now rewrite H2, H4. }
  now rewrite (rename_wide_other d Hd1 Hd2).
Qed.

(** The column afterHours is found under after_hours, where the frame has
    no after_hours of its own. *)
Lemma mem_rename (m : list (string * string)) (c : string) (cs : list string) :
  mem c cs = true -> mem (rename_label m c) (map (rename_label m) cs) = true.
Proof.
  induction cs as [|d cs IH]; [discriminate|].
  cbn [mem existsb map]. intros H. apply orb_true_iff in H. apply orb_true_iff.
  destruct H as [H|H].
  - left. apply String.eqb_eq in H. subst d. apply String.eqb_refl.
  - right. apply IH. exact H.
Qed.

(** With distinct labels after the renaming, a frame that has afterHours
    has no after_hours of its own. *)
Lemma distinct_rename_after_hours (cs : list string) :
  distinct (map (rename_label wide_renames) cs) = true ->
  mem "afterHours" cs = true -> mem "after_hours" cs = false.
Proof.
  induction cs as [|d cs IH]; [discriminate|].
  cbn [distinct map]. intros Hd Ha. apply andb_true_iff in Hd. destruct Hd as [Hd1 Hd2].
  apply negb_true_iff in Hd1.
  cbn [mem existsb] in Ha |- *. apply orb_true_iff in Ha. apply orb_false_iff.
  destruct Ha as [Ha|Ha].
  - apply String.eqb_eq in Ha. subst d. split; [reflexivity|].
    destruct (existsb (String.eqb "after_hours") cs) eqn:E; [|reflexivity].
    pose proof (mem_rename wide_renames "after_hours" cs E) as H.
    change (rename_label wide_renames "after_hours") with "after_hours" in H.
    change (rename_label wide_renames "afterHours") with "after_hours" in Hd1.
    rewrite H in Hd1. discriminate.
  - split; [|apply IH; assumption].
    destruct (String.eqb "after_hours" d) eqn:E; [|reflexivity].
    apply String.eqb_eq in E. subst d.
    pose proof (mem_rename wide_renames "afterHours" cs Ha) as H.
    change (rename_label wide_renames "afterHours") with "after_hours" in H.
    change (rename_label wide_renames "after_hours") with "after_hours" in Hd1.
    rewrite H in Hd1. discriminate.
Qed.

Lemma index_of_rename_after_hours (cs : list string) :
  mem "after_hours" cs = false ->
  index_of "after_hours" (map (rename_label wide_renames) cs) = index_of "afterHours" cs.
Proof.
  induction cs as [|d cs IH]; [reflexivity|].
  cbn [mem existsb map index_of]. intros H. apply orb_false_iff in H. destruct H as [Hd H].
  fold (mem "after_hours" cs) in H. rewrite (IH H).
  destruct (String.eqb_spec d "afterHours") as [->|Hd1]; [reflexivity|].
  destruct (String.eqb_spec d "preMarket") as [->|Hd2]; [reflexivity|].
  rewrite (rename_wide_other d Hd1 Hd2). rewrite Hd.
  assert (E : ("afterHours" =? d)%string = false)
    by (apply String.eqb_neq; congruence).
  now rewrite E.
Qed.

(** X10.  [create_price_types_df] reads the provider's afterHours column:
    every row of a frame that can be melted gives a long row with the price type after_hours
    and the value of afterHours. *)
Theorem create_price_types_df_after_hours (st : state) (l : loc) (df : DataFrame)
    (r : list json) :
  nth_error (heap st) l = Some df ->
  distinct (wide_fields df) = true ->
  meltable df = true ->
  mem "afterHours" (columns df) = true ->
  In r (rows df) ->
  exists l' long st',
    create_price_types_df (PFrame l) st = (Ret (PFrame l'), st') /\
    nth_error (heap st') l' = Some long /\
    columns long = long_columns /\
    In [cell (columns df) r "symbol"; cell (columns df) r "from"; JStr "after_hours";
        cell (columns df) r "afterHours"] (rows long).
Proof.
  intros Hl Hd Hm Ha Hr.
  pose proof (distinct_rename_after_hours (columns df) Hd Ha) as Hn.
  destruct st as [h lg fs]. cbn [heap] in Hl.
  destruct (create_price_types_df_long_of h lg fs l df Hl Hm) as (l' & h' & lg' & Hrun & Hl' & _).
  exists l', (long_of df), (mkState h' lg' fs). split; [exact Hrun|].
  split; [exact Hl'|]. split; [reflexivity|].
  unfold long_of. cbn [rows]. apply in_flat_map. exists "after_hours". split.
  - unfold present_prices. apply filter_In. split; [cbn; tauto|].
    unfold wide_fields, df_rename. cbn [columns].
    clear -Ha. induction (columns df) as [|d cs IH]; [discriminate|].
    cbn [mem existsb map] in *. apply orb_true_iff in Ha. destruct Ha as [Ha|Ha].
    + apply String.eqb_eq in Ha. subst d. reflexivity.
    + apply orb_true_iff. right. apply IH. exact Ha.
  - apply in_map_iff. exists r. split; [|exact Hr].
    unfold long_row, cell, wide_fields, df_rename. cbn [columns].
    rewrite (index_of_rename_other "symbol"), (index_of_rename_other "from"),
      (index_of_rename_after_hours _ Hn); try discriminate.
    reflexivity.
Qed.

(** ** No exception leaves a fetcher or a stage *)

(** X6.  The four fetchers, for every network and every argument: none
    of them raises, none writes a file, and none changes a frame that is
    already there; [fetch_currency_name] makes no frame at all. *)
Theorem fetchers_contain_failures (network : string -> net_result)
    (API_KEY ticker date base : string) (adjusted : bool) (symbols : list string) :
  (returns (fetch_stock_data network API_KEY ticker date adjusted) /\
   respects grown (fetch_stock_data network API_KEY ticker date adjusted)) /\
  (returns (fetch_currency_name network API_KEY ticker) /\
   respects only_logged (fetch_currency_name network API_KEY ticker)) /\
  (returns (fetch_latest_currency_rates network base symbols date) /\
   respects grown (fetch_latest_currency_rates network base symbols date)) /\
  (returns (fetch_available_currencies network) /\
   respects grown (fetch_available_currencies network)).
Proof.
  split; [split|split; [split|split; split]].
  - apply fetch_stock_data_returns.
  - apply fetch_stock_data_grows.
  - apply fetch_currency_name_returns.
  - apply fetch_currency_name_logs_only.
  - apply fetch_latest_currency_rates_returns.
  - apply fetch_latest_currency_rates_grows.
  - apply fetch_available_currencies_returns.
  - apply fetch_available_currencies_grows.
Qed.


(** ** The report builder, called again *)




(** ** Sample runs *)

(** The FX provider answers with two rates. *)
Lemma fetch_latest_currency_rates_table_witness :
  (network_fine (rates_url "usd" [] "2024-10-03") = ok rates_body_ex /\
   status_code (mkResponse 200 "" (Some rates_body_ex)) = 200%Z) /\
  fst (fetch_latest_currency_rates network_fine "usd" [] "2024-10-03" init_state)
  = Ret (PFrame 0) /\
  heap (snd (fetch_latest_currency_rates network_fine "usd" [] "2024-10-03" init_state))
  = [rates_ex].
Proof.
  split; [split; reflexivity|].
  pose proof (fetch_latest_currency_rates_table network_fine "usd" "2024-10-03" []
                (mkResponse 200 "" (Some rates_body_ex))
                [("base", JStr "USD");
                 ("rates", JObj [("EUR", JNum 0.92%float); ("GBP", JNum 0.78%float)])]
                [("EUR", JNum 0.92%float); ("GBP", JNum 0.78%float)] init_state
                eq_refl eq_refl eq_refl eq_refl) as H.
  cbv zeta in H. destruct H as (A & B & _). split; [exact A | exact B].
Defined.

(** The FX provider answers 200 without rates. *)
Lemma fetch_latest_currency_rates_no_entry_witness :
  (network_no_rates (rates_url "usd" [] "2024-10-03") = ok (JObj [("base", JStr "USD")]) /\
   dict_get "rates" [("base", JStr "USD")] = None) /\
  fst (fetch_latest_currency_rates network_no_rates "usd" [] "2024-10-03" init_state)
  = Ret (PFrame 0) /\
  heap (snd (fetch_latest_currency_rates network_no_rates "usd" [] "2024-10-03" init_state))
  = [mkDF rate_columns []].
Proof.
  split; [split; reflexivity|].
  pose proof (fetch_latest_currency_rates_no_entry network_no_rates "usd" "2024-10-03" []
                (mkResponse 200 "" (Some (JObj [("base", JStr "USD")])))
                [("base", JStr "USD")] init_state eq_refl eq_refl eq_refl eq_refl) as H.
  cbv zeta in H. destruct H as (A & B & _). split; [exact A | exact B].
Defined.

(** The FX provider answers with rates that are a list. *)
Lemma fetch_latest_currency_rates_malformed_witness :
  is_rates_failure (network_rates_list (rates_url "usd" [] "2024-10-03")) = true /\
  fst (fetch_latest_currency_rates network_rates_list "usd" [] "2024-10-03" init_state)
  = Ret PNone.
Proof.
  split; [reflexivity|].
  apply (fetch_latest_currency_rates_malformed network_rates_list "usd" "2024-10-03" []
           init_state eq_refl).
Defined.

(** Two days, three price columns: six long rows. *)
Lemma create_price_types_df_blocks_witness :
  (nth_error (heap (mkState [wide_two_days] [] [])) 0 = Some wide_two_days /\
   distinct (wide_fields wide_two_days) = true /\
   meltable wide_two_days = true) /\
  exists l' st',
    create_price_types_df (PFrame 0) (mkState [wide_two_days] [] []) = (Ret (PFrame l'), st') /\
    nth_error (heap st') l' = Some (long_of wide_two_days) /\
    List.length (rows (long_of wide_two_days))
    = List.length (present_prices wide_two_days) * List.length (rows wide_two_days).
Proof.
  split; [repeat split; reflexivity|].
  apply (create_price_types_df_blocks (mkState [wide_two_days] [] []) 0 wide_two_days);
    reflexivity.
Defined.

Lemma create_price_types_df_no_prices_witness :
  (nth_error (heap (mkState [wide_no_prices] [] [])) 0 = Some wide_no_prices /\
   present_prices wide_no_prices = []) /\
  exists l' st',
    create_price_types_df (PFrame 0) (mkState [wide_no_prices] [] []) = (Ret (PFrame l'), st') /\
    nth_error (heap st') l' = Some (mkDF long_columns []) /\
    last_level st' = Some WARNING /\
    files st' = files (mkState [wide_no_prices] [] []).
Proof.
  split; [split; reflexivity|].
  apply (create_price_types_df_no_prices (mkState [wide_no_prices] [] []) 0 wide_no_prices);
    reflexivity.
Defined.

(** Prices without a symbol: None. *)
Lemma create_price_types_df_none_iff_witness :
  (nth_error (heap (mkState [wide_no_symbol] [] [])) 0 = Some wide_no_symbol /\
   distinct (wide_fields wide_no_symbol) = true) /\
  (present_prices wide_no_symbol <> [] /\ meltable wide_no_symbol = false) /\
  fst (create_price_types_df (PFrame 0) (mkState [wide_no_symbol] [] [])) = Ret PNone.
Proof.
  split; [split; reflexivity|]. split; [split; [discriminate | reflexivity]|].
  apply (create_price_types_df_none_iff (mkState [wide_no_symbol] [] []) 0 wide_no_symbol
           eq_refl eq_refl).
  split; [discriminate | reflexivity].
Defined.

Lemma create_price_types_df_after_hours_witness :
  (nth_error (heap (mkState [wide_two_days] [] [])) 0 = Some wide_two_days /\
   distinct (wide_fields wide_two_days) = true /\
   meltable wide_two_days = true /\
   mem "afterHours" (columns wide_two_days) = true /\
   In [JStr "AAPL"; JStr "2024-10-04"; JNum 153%float; JNum 155%float; JNum 154%float]
      (rows wide_two_days)) /\
  exists l' long st',
    create_price_types_df (PFrame 0) (mkState [wide_two_days] [] []) = (Ret (PFrame l'), st') /\
    nth_error (heap st') l' = Some long /\
    columns long = long_columns /\
    In [JStr "AAPL"; JStr "2024-10-04"; JStr "after_hours"; JNum 154%float] (rows long).
Proof.
  split; [repeat split; try reflexivity; right; left; reflexivity|].
  apply (create_price_types_df_after_hours (mkState [wide_two_days] [] []) 0 wide_two_days
           [JStr "AAPL"; JStr "2024-10-04"; JNum 153%float; JNum 155%float; JNum 154%float]);
    try reflexivity.
  right; left; reflexivity.
Defined.



Lemma report_with_non_numeric_price_witness :
  (nth_error (heap store_text_price) 0 = Some long_text_price /\
   nth_error (heap store_text_price) 1 = Some rates_ex /\
   In [JStr "AAPL"; JStr "2024-10-03"; JStr "close"; JStr "n/a"] (rows long_text_price) /\
   numeric_or_null (JStr "n/a") = false /\
   In [JStr "EUR"; JNum 0.92%float] (rows rates_ex) /\
   fractional (JNum 0.92%float) = true /\
   is_na (JNum 0.92%float) = false) /\
  fst (create_stock_currency_report (PFrame 0) (PFrame 1) "usd" store_text_price) = Ret PNone /\
  last_level (snd (create_stock_currency_report (PFrame 0) (PFrame 1) "usd" store_text_price))
  = Some ERROR.
Proof.
  split.
  - repeat split; try reflexivity; [right; left; reflexivity | left; reflexivity].
  - apply (report_with_non_numeric_price store_text_price 0 1 long_text_price rates_ex "usd"
             (JStr "AAPL") (JStr "2024-10-03") (JStr "close") (JStr "n/a") (JStr "EUR")
             (JNum 0.92%float)); try reflexivity;
      [right; left; reflexivity | left; reflexivity].
Defined.



Lemma main_without_stock_data_witness :
  snapshot_of (network_closed (stock_url "KEY" "AAPL" "2024-10-05" true)) = None /\
  exists st',
    main network_closed "KEY" "AAPL" "2024-10-05" [] init_state = (Ret tt, st') /\
    heap st' = heap init_state /\ files st' = files init_state /\
    hd_error (log st') = Some (ERROR, "Failed to fetch stock data for AAPL. Exiting.").
Proof.
  split; [reflexivity|].
  apply (main_without_stock_data network_closed "KEY" "AAPL" "2024-10-05" [] init_state eq_refl).
Defined.

Lemma main_without_currency_witness :
  (snapshot_of (network_no_reference (stock_url "KEY" "AAPL" "2024-10-03" true))
   = Some stock_body_ex /\
   falsy_value (currency_result (network_no_reference (reference_url "KEY" "AAPL"))) = true) /\
  exists st',
    main network_no_reference "KEY" "AAPL" "2024-10-03" [] init_state = (Ret tt, st') /\
    files st' = files init_state /\
    hd_error (log st') = Some (ERROR, "Could not fetch currency for AAPL. Exiting.").
Proof.
  split; [split; reflexivity|].
  apply (main_without_currency network_no_reference "KEY" "AAPL" "2024-10-03" []
           stock_body_ex eq_refl init_state eq_refl).
Defined.

Lemma main_with_currency_of_wrong_type_witness :
  (snapshot_of (network_currency_number (stock_url "KEY" "AAPL" "2024-10-03" true))
   = Some stock_body_ex /\
   currency_of_answer (network_currency_number (reference_url "KEY" "AAPL"))
   = Some (JNum 840%float) /\
   falsy (JNum 840%float) = false /\ is_string (JNum 840%float) = false) /\
  exists st',
    main network_currency_number "KEY" "AAPL" "2024-10-03" [] init_state
    = (Raise AttributeError, st') /\
    files st' = files init_state.
Proof.
  split; [repeat split; reflexivity|].
  apply (main_with_currency_of_wrong_type network_currency_number "KEY" "AAPL" "2024-10-03" []
           stock_body_ex eq_refl (JNum 840%float) init_state); reflexivity.
Defined.
